(** * PlaybookNews: registration, login, route guards and preference updates

    A shallow embedding of the server's authentication layer
    ([server/auth.js], [server/getReqs/loginUser.js],
    [server/setReqs/createUser.js] and the route handlers of
    [server/server.js]) together with the properties its design document
    states about it.

    Conventions.
    - JavaScript values are the inductive [JS.value]; strings are
      sequences of code units below 256 (the Latin-1 block), on which
      [trim], [toLowerCase] and the regular-expression class [\s] act
      unit by unit.
    - A handler's use of [res] is the ordered list of calls it makes
      ([effect]); a guard additionally says whether it called [next()].
    - [async] functions are run to completion: a rejected promise is a
      thrown completion.  The store is threaded explicitly and survives a
      throw, as the real one does. *)

From Stdlib Require Import String Ascii List ZArith NArith Bool Arith Lia.
Import ListNotations.
Local Open Scope string_scope.
Local Open Scope list_scope.

Set Warnings "-register-all".

(* ===================================================================== *)
(** ** JavaScript values and the string primitives the code calls *)
(* ===================================================================== *)

Module JS.

Inductive value : Type :=
| VUndefined
| VNull
| VBool (b : bool)
| VNum (n : Z)
| VStr (s : string)
| VArr (items : list value)
| VObj (fields : list (string * value)).

(** The [typeof] operator. *)
Definition typeof (v : value) : string :=
  match v with
  | VUndefined => "undefined"
  | VNull => "object"
  | VBool _ => "boolean"
  | VNum _ => "number"
  | VStr _ => "string"
  | VArr _ => "object"
  | VObj _ => "object"
  end.

(** [ToBoolean]: what [!v], [v && ...] and [if (v)] test. *)
Definition truthy (v : value) : bool :=
  match v with
  | VUndefined | VNull => false
  | VBool b => b
  | VNum n => negb (n =? 0)%Z
  | VStr s => negb (s =? "")
  | VArr _ | VObj _ => true
  end.

Definition nullish (v : value) : bool :=
  match v with
  | VUndefined | VNull => true
  | _ => false
  end.

Fixpoint assoc (k : string) (fields : list (string * value)) : option value :=
  match fields with
  | [] => None
  | (k', v) :: rest => if k' =? k then Some v else assoc k rest
  end.

(** [v.k] for a non-nullish [v] and a key that is not on a prototype
    ([username], [password], [preferences], ... are not). *)
Definition prop (v : value) (k : string) : value :=
  match v with
  | VObj fields =>
      match assoc k fields with
      | Some x => x
      | None => VUndefined
      end
  | _ => VUndefined
  end.

(** [Object.keys(o).length] of an object literal being filled in. *)
Definition keys (fields : list (string * value)) : list string :=
  map fst fields.

(** WhiteSpace and LineTerminator code units below 256: TAB, LF, VT, FF,
    CR, SPACE and NBSP.  [String.prototype.trim] strips exactly these,
    and the regular-expression class [\s] matches exactly these. *)
Definition isWhiteSpace (c : ascii) : bool :=
  let n := nat_of_ascii c in
  (((9 <=? n) && (n <=? 13)) || (n =? 32) || (n =? 160))%nat.

(** [String.prototype.toLowerCase] on one code unit: A-Z and the
    Latin-1 capitals (all of 192..222 but the multiplication sign). *)
Definition lowerChar (c : ascii) : ascii :=
  let n := nat_of_ascii c in
  if (((65 <=? n) && (n <=? 90))
      || ((192 <=? n) && (n <=? 222) && negb (n =? 215)))%nat
  then ascii_of_nat (n + 32)
  else c.

Fixpoint toLowerCase (s : string) : string :=
  match s with
  | EmptyString => EmptyString
  | String c rest => String (lowerChar c) (toLowerCase rest)
  end.

Fixpoint trimStart (s : string) : string :=
  match s with
  | EmptyString => EmptyString
  | String c rest => if isWhiteSpace c then trimStart rest else s
  end.

Fixpoint trimEnd (s : string) : string :=
  match s with
  | EmptyString => EmptyString
  | String c rest =>
      match trimEnd rest with
      | EmptyString => if isWhiteSpace c then EmptyString else String c EmptyString
      | t => String c t
      end
  end.

Definition trim (s : string) : string := trimEnd (trimStart s).

(** [Error] objects: the fields the code reads ([message], [code]). *)
Record error : Type := mkError {
  name : string;
  message : string;
  code : option Z
}.

Definition Error (msg : string) : error := mkError "Error" msg None.
Definition TypeError (msg : string) : error := mkError "TypeError" msg None.
Definition ReferenceError (msg : string) : error :=
  mkError "ReferenceError" msg None.

(** How a call finishes: normally with a value, or by throwing. *)
Inductive completion (A : Type) : Type :=
| Normal (a : A)
| Throw (e : error).
Arguments Normal {A} a.
Arguments Throw {A} e.

End JS.
Import JS.

(* ===================================================================== *)
(** ** Regular expressions (for the e-mail pattern of [validate]) *)
(* ===================================================================== *)

Module Regex.

(** Syntax: enough for [/^[^\s@]+@[^\s@]+\.[^\s@]+$/].  A character
    class is a predicate on code units. *)
Inductive regex : Type :=
| Void
| Eps
| Class (p : ascii -> bool)
| Alt (r1 r2 : regex)
| Cat (r1 r2 : regex)
| Star (r : regex).

(** [r+] *)
Definition Plus (r : regex) : regex := Cat r (Star r).

(** A literal character. *)
Definition Lit (c : ascii) : regex := Class (Ascii.eqb c).

(** Denotation: the words a regular expression matches in full. *)
Inductive matches : regex -> list ascii -> Prop :=
| MEps : matches Eps []
| MClass p c : p c = true -> matches (Class p) [c]
| MAltL r1 r2 w : matches r1 w -> matches (Alt r1 r2) w
| MAltR r1 r2 w : matches r2 w -> matches (Alt r1 r2) w
| MCat r1 r2 w1 w2 :
    matches r1 w1 -> matches r2 w2 -> matches (Cat r1 r2) (w1 ++ w2)
| MStarNil r : matches (Star r) []
| MStarCons r w1 w2 :
    matches r w1 -> matches (Star r) w2 -> matches (Star r) (w1 ++ w2).

(** The matcher: Brzozowski derivatives. *)
Fixpoint nullable (r : regex) : bool :=
  match r with
  | Void => false
  | Eps => true
  | Class _ => false
  | Alt r1 r2 => nullable r1 || nullable r2
  | Cat r1 r2 => nullable r1 && nullable r2
  | Star _ => true
  end.

Fixpoint deriv (c : ascii) (r : regex) : regex :=
  match r with
  | Void => Void
  | Eps => Void
  | Class p => if p c then Eps else Void
  | Alt r1 r2 => Alt (deriv c r1) (deriv c r2)
  | Cat r1 r2 =>
      if nullable r1
      then Alt (Cat (deriv c r1) r2) (deriv c r2)
      else Cat (deriv c r1) r2
  | Star r1 => Cat (deriv c r1) (Star r1)
  end.

Fixpoint accepts (r : regex) (w : list ascii) : bool :=
  match w with
  | [] => nullable r
  | c :: w' => accepts (deriv c r) w'
  end.

(** [/^r$/.test(s)]: with both anchors and no flags the whole string
    must match. *)
Definition test (r : regex) (s : string) : bool :=
  accepts r (list_ascii_of_string s).

End Regex.

(* ===================================================================== *)
(** ** The document store *)
(* ===================================================================== *)

Module Mongo.

(** An [ObjectId] in its 24-hex-digit form, the form in which it travels
    inside a token ([userId]) and comes back through [new ObjectId(...)]. *)
Definition ObjectId : Type := string.

(** A document of the [users] collection, as [createUser] writes it. *)
Record user : Type := mkUser {
  _id : ObjectId;
  username : string;
  password : string;
  email : string;
  preferences : value;
  createdAt : N
}.

(** The connected database: the [users] collection and the driver's
    counter for fresh identities. *)
Record db : Type := mkDb {
  users : list user;
  counter : N
}.

Definition empty : db := mkDb [] 0.

Definition hexDigit (n : N) : ascii :=
  nth (N.to_nat n)
      (list_ascii_of_string "0123456789abcdef") "0"%char.

(** The [k] low hexadecimal digits of [n], most significant first. *)
Fixpoint hexDigits (k : nat) (n : N) : string :=
  match k with
  | O => EmptyString
  | S k' => hexDigits k' (n / 16) ++ String (hexDigit (n mod 16)) EmptyString
  end.

Definition freshId (d : db) : ObjectId := hexDigits 24 (counter d).

Definition isHexDigit (c : ascii) : bool :=
  let n := nat_of_ascii c in
  (((48 <=? n) && (n <=? 57)) || ((65 <=? n) && (n <=? 70))
   || ((97 <=? n) && (n <=? 102)))%nat.

(** [new ObjectId(v)] for a truthy [v]: a string of 24 hexadecimal digits
    names an identity (case-insensitively); any other string, and any
    non-string, is taken as not naming one and throws. *)
Definition newObjectId (v : value) : completion ObjectId :=
  match v with
  | VStr s =>
      if (String.length s =? 24)%nat
         && forallb isHexDigit (list_ascii_of_string s)
      then Normal (toLowerCase s)
      else Throw (mkError "BSONError"
                    "input must be a 24 character hex string, 12 byte Uint8Array, or an integer"
                    None)
  | _ => Throw (mkError "BSONError"
                  "input must be a 24 character hex string, 12 byte Uint8Array, or an integer"
                  None)
  end.

(** The error the server raises on a unique-index violation. *)
Definition duplicateKey : error :=
  mkError "MongoServerError" "E11000 duplicate key error collection" (Some 11000%Z).

(** [collection("users").findOne({username: name})] *)
Definition findOne (name : string) (d : db) : option user :=
  find (fun u => username u =? name) (users d).

(** Modelled from the spec: the uniqueness constraint of the store, which
    lives in the database and not in the server's code ("insert with
    uniqueness enforcement on username/email"). *)
Definition collides (uname mail : string) (d : db) : bool :=
  existsb (fun u => (username u =? uname) || (email u =? mail)) (users d).

(** [insertOne(doc)]: [doc] carries no [_id], the driver assigns one.
    Gives the new database and the inserted identity, or the duplicate-key
    error and the database untouched. *)
Definition insertOne (uname pw mail : string) (prefs : value) (now : N)
    (d : db) : db * completion ObjectId :=
  if collides uname mail d
  then (d, Throw duplicateKey)
  else
    let i := freshId d in
    (mkDb (users d ++ [mkUser i uname pw mail prefs now]) (counter d + 1),
     Normal i).

(** One [$set] field applied to a document.  Only [username] (a string)
    and [preferences] are ever set by the server. *)
Definition setField (u : user) (kv : string * value) : user :=
  let (k, v) := kv in
  if k =? "username" then
    match v with
    | VStr s => mkUser (_id u) s (password u) (email u) (preferences u)
                  (createdAt u)
    | _ => u
    end
  else if k =? "preferences" then
    mkUser (_id u) (username u) (password u) (email u) v (createdAt u)
  else u.

Definition applySet (u : user) (update : list (string * value)) : user :=
  fold_left setField update u.

Fixpoint replaceFirst (i : ObjectId) (f : user -> user) (us : list user)
    : list user :=
  match us with
  | [] => []
  | u :: rest =>
      if _id u =? i then f u :: rest else u :: replaceFirst i f rest
  end.

(** Would [$set]ting [update] on the document that the filter [{_id: i}]
    matches give it a username some other document already has?  Where no
    document has that identity nothing is written, so nothing collides. *)
Definition renameCollides (i : ObjectId) (update : list (string * value))
    (d : db) : bool :=
  match assoc "username" update with
  | Some (VStr s) =>
      existsb (fun u => _id u =? i) (users d)
      && existsb (fun u => negb (_id u =? i) && (username u =? s)) (users d)
  | _ => false
  end.

(** [updateOne({_id: i}, {$set: update})]: the first document with that
    identity, if any, gets the fields of [update]. *)
Definition updateOne (i : ObjectId) (update : list (string * value))
    (d : db) : db * completion unit :=
  if renameCollides i update d
  then (d, Throw duplicateKey)
  else (mkDb (replaceFirst i (fun u => applySet u update) (users d))
             (counter d),
        Normal tt).

End Mongo.

(* ===================================================================== *)
(** ** Asynchronous code over the store *)
(* ===================================================================== *)

(** An [async] function run to completion over the store: the store it
    leaves behind and how it finished. *)
Definition M (A : Type) : Type := Mongo.db -> Mongo.db * completion A.

Definition ret {A} (a : A) : M A := fun d => (d, Normal a).

Definition throw {A} (e : error) : M A := fun d => (d, Throw e).

Definition bind {A B} (m : M A) (k : A -> M B) : M B :=
  fun d =>
    match m d with
    | (d', Normal a) => k a d'
    | (d', Throw e) => (d', Throw e)
    end.

(** [try { m } catch (e) { h e }] *)
Definition tryCatch {A} (m : M A) (h : error -> M A) : M A :=
  fun d =>
    match m d with
    | (d', Normal a) => (d', Normal a)
    | (d', Throw e) => h e d'
    end.

(** A synchronous call that may throw. *)
Definition lift {A} (c : completion A) : M A := fun d => (d, c).

(** A read of the store. *)
Definition query {A} (f : Mongo.db -> A) : M A := fun d => (d, Normal (f d)).

Declare Scope js_scope.
Delimit Scope js_scope with js.
Notation "x <- m ;; k" := (bind m (fun x => k))
  (at level 61, m at next level, right associativity) : js_scope.
Notation "m ;; k" := (bind m (fun _ => k))
  (at level 61, right associativity) : js_scope.
Local Open Scope js_scope.

(** Resolving an identifier against the bindings in scope where it is
    used: an identifier bound nowhere is a [ReferenceError] (module code
    is strict). *)
Definition resolve (x : string) (scope : list (string * value)) : M value :=
  match assoc x scope with
  | Some v => ret v
  | None => throw (ReferenceError (x ++ " is not defined"))
  end.

(* ===================================================================== *)
(** ** Requests, responses and guards *)
(* ===================================================================== *)

Record cookieOptions : Type := mkCookieOptions {
  httpOnly : bool;
  secure : bool;
  sameSite : string;
  maxAge : Z
}.

(** The calls a handler makes on [res], in the order it makes them.  A
    response that sets no status goes out with 200, a redirect with 302. *)
Inductive effect : Type :=
| clearCookie (name : string)
| cookie (name val : string) (opts : cookieOptions)
| status (code : nat)
| json (body : value)
| redirect (path : string).

(** [req.user], as the require-guards attach it. *)
Record identity : Type := mkIdentity {
  id : value;
  username : value
}.

Record request : Type := mkRequest {
  auth : value;            (* req.cookies?.auth: undefined when absent *)
  body : value;            (* req.body *)
  user : option identity   (* req.user *)
}.

(** What a guard did: the calls it made on [res], and the request it
    handed to [next()] if it called it. *)
Record guarded : Type := mkGuarded {
  sent : list effect;
  next : option request
}.

(** The status line a list of [res] calls ends up with. *)
Definition statusOf (es : list effect) : nat :=
  fold_left (fun acc e =>
               match e with
               | status c => c
               | redirect _ => 302%nat
               | _ => acc
               end) es 200%nat.

Definition errorBody (msg : string) : value := VObj [("error", VStr msg)].

Section Server.

(** The libraries and the environment the server runs against. *)
Variable bcrypt_hash : string -> nat -> string.        (* bcrypt.hash *)
Variable bcrypt_compare : string -> string -> bool.    (* bcrypt.compare *)
Variable jwt_sign : value -> value -> string -> string.
  (* jwt.sign(payload, secret, {expiresIn}) *)
Variable jwt_verify : value -> value -> option value.
  (* jwt.verify(token, secret): the decoded payload, or None when it throws *)
Variable JWT_SECRET : value.                           (* process.env.JWT_SECRET *)
Variable isProd : bool.          (* process.env.NODE_ENV === "production" *)
Variable Date_now : N.                                 (* new Date() *)

(** *** auth.js *)

Definition attach (req : request) (decoded : value) : request :=
  mkRequest (auth req) (body req)
    (Some (mkIdentity (prop decoded "userId") (prop decoded "username"))).

Definition requireAuth (req : request) : guarded :=
  let token := auth req in
  if negb (truthy JWT_SECRET) then
    mkGuarded [status 500; json (errorBody "Server misconfigured")] None
  else if negb (truthy token) then
    mkGuarded [status 401; json (errorBody "Unauthorized")] None
  else
    match jwt_verify token JWT_SECRET with
    | Some decoded => mkGuarded [] (Some (attach req decoded))
    | None =>
        mkGuarded [clearCookie "auth"; status 401;
                   json (errorBody "Unauthorized")] None
    end.

Definition requireAuthPage (req : request) : guarded :=
  let token := auth req in
  if negb (truthy token) || negb (truthy JWT_SECRET) then
    mkGuarded [redirect "/login"] None
  else
    match jwt_verify token JWT_SECRET with
    | Some decoded => mkGuarded [] (Some (attach req decoded))
    | None => mkGuarded [clearCookie "auth"; redirect "/login"] None
    end.

Definition reverseAuthPage (req : request) : guarded :=
  let token := auth req in
  if negb (truthy token) || negb (truthy JWT_SECRET) then
    mkGuarded [] (Some req)
  else
    match jwt_verify token JWT_SECRET with
    | Some _ => mkGuarded [redirect "/"] None
    | None => mkGuarded [clearCookie "auth"] (Some req)
    end.

Definition reverseAuth (req : request) : guarded :=
  let token := auth req in
  if negb (truthy token) || negb (truthy JWT_SECRET) then
    mkGuarded [] (Some req)
  else
    match jwt_verify token JWT_SECRET with
    | Some _ =>
        mkGuarded [status 400; json (errorBody "Already logged in")] None
    | None => mkGuarded [clearCookie "auth"] (Some req)
    end.

(** *** getReqs/loginUser.js *)

(** What [loginUser] resolves to: [{passed: false, message}] or
    [{passed: true, chocolateChipCookie, preferences}]. *)
Inductive loginResult : Type :=
| loginFailed (message : string)
| loginPassed (chocolateChipCookie : string) (preferences : value).

Definition passed (r : loginResult) : bool :=
  match r with
  | loginFailed _ => false
  | loginPassed _ _ => true
  end.

Definition signAuthToken (u : Mongo.user) : completion string :=
  let payload := VObj [("userId", VStr (Mongo._id u));
                       ("username", VStr (Mongo.username u))] in
  let secret := JWT_SECRET in
  if negb (truthy secret) then Throw (Error "Err creating auth token")
  else Normal (jwt_sign payload secret "1d").

Definition cannotDestructure : error :=
  TypeError "Cannot destructure property 'username' of 'undefined' as it is undefined.".

(** [loginUser({ username, password })] *)
Definition loginUser (arg : value) : M loginResult :=
  if nullish arg then throw cannotDestructure else
  let username := prop arg "username" in
  let password := prop arg "password" in
  match username, password with
  | VStr username, VStr password =>
      user <- query (Mongo.findOne (trim username)) ;;
      match user with
      | None => ret (loginFailed "Invalid username or password")
      | Some user =>
          let passwordMatch := bcrypt_compare password (Mongo.password user) in
          if negb passwordMatch then
            ret (loginFailed "Invalid username or password")
          else
            cookie <- lift (signAuthToken user) ;;
            ret (loginPassed cookie (Mongo.preferences user))
      end
  | _, _ => ret (loginFailed "Username and password must be strings")
  end.

(** *** setReqs/createUser.js *)

Definition SALT_ROUNDS : nat := 15.

(** [[^\s@]] *)
Definition notSpaceOrAt (c : ascii) : bool :=
  negb (isWhiteSpace c || Ascii.eqb c "@").

(** [/^[^\s@]+@[^\s@]+\.[^\s@]+$/] *)
Definition emailRegex : Regex.regex :=
  Regex.Cat (Regex.Plus (Regex.Class notSpaceOrAt))
    (Regex.Cat (Regex.Lit "@")
       (Regex.Cat (Regex.Plus (Regex.Class notSpaceOrAt))
          (Regex.Cat (Regex.Lit ".")
             (Regex.Plus (Regex.Class notSpaceOrAt))))).

(** [v.length < n] for a value already known to be a string. *)
Definition shorterThan (v : value) (n : nat) : bool :=
  match v with
  | VStr s => (String.length s <? n)%nat
  | _ => false
  end.

Definition failsRegex (v : value) : bool :=
  match v with
  | VStr s => negb (Regex.test emailRegex s)
  | _ => false
  end.

(** [validate({username, password, email, preferences})]: the message of
    the first rule that fails, or [None] for [null]. *)
Definition validate (username password email preferences : value)
    : option string :=
  if negb (truthy username) || negb (typeof username =? "string")
     || shorterThan username 3
  then Some "Username must be at least 3 characters long."
  else if negb (truthy password) || negb (typeof password =? "string")
          || shorterThan password 6
  then Some "Password must be at least 6 characters long."
  else if negb (truthy email) || negb (typeof email =? "string")
          || failsRegex email
  then Some "Invalid email address."
  else None.

Definition encryptPassword (password : string) : string :=
  bcrypt_hash password SALT_ROUNDS.

(** The user object [createUser] builds, as a value. *)
Definition userObject (uname hash mail : string) (prefs : value) : value :=
  VObj [("username", VStr uname); ("password", VStr hash);
        ("email", VStr mail); ("preferences", prefs);
        ("createdAt", VNum (Z.of_N Date_now))].

(** The bindings visible at the last statement of [createUser]: its
    parameters and the [let]/[const] declarations of its body (the
    function-valued and handle-valued ones stand as empty objects), then
    those of the module.  The [const result] that receives the outcome of
    [insertOne] is declared inside the [try] block and is a binding of
    that block only. *)
Definition scopeAtReturn (username password email preferences : value)
    (hash user : value) : list (string * value) :=
  [("username", username); ("password", password); ("email", email);
   ("preferences", preferences); ("err", VNull); ("hash", hash);
   ("user", user); ("db", VObj []);
   ("bcrypt", VObj []); ("getDB", VObj []);
   ("SALT_ROUNDS", VNum (Z.of_nat SALT_ROUNDS));
   ("USERS_COLLECTION", VStr "users");
   ("validate", VObj []); ("encryptPassword", VObj []);
   ("createUser", VObj [])].

(** [createUser({username, password, email, preferences = {}})] *)
Definition createUser (arg : value) : M value :=
  if nullish arg then throw cannotDestructure else
  let username := prop arg "username" in
  let password := prop arg "password" in
  let email := prop arg "email" in
  let preferences :=
    match prop arg "preferences" with
    | VUndefined => VObj []
    | p => p
    end in
  match validate username password email preferences with
  | Some err => throw (Error err)
  | None =>
      match username, password, email with
      | VStr uname, VStr pw, VStr mail =>
          let hash := encryptPassword pw in
          let user := userObject (toLowerCase uname) hash (toLowerCase mail)
                        preferences in
          tryCatch
            (result <- Mongo.insertOne (toLowerCase uname) hash
                         (toLowerCase mail) preferences Date_now ;;
             ret tt)
            (fun e =>
               if match code e with
                  | Some c => (c =? 11000)%Z
                  | None => false
                  end
               then throw (Error "Username or email already exists.")
               else throw (Error ("Error creating user: " ++ message e))) ;;
          result <- resolve "result"
                      (scopeAtReturn username password email preferences
                         (VStr hash) user) ;;
          ret (prop result "insertedId")
      | _, _, _ =>
          (* not reached: [validate] lets only strings through *)
          throw (TypeError "username.toLowerCase is not a function")
      end
  end.

(** *** server.js *)

Definition authCookieOptions : cookieOptions :=
  mkCookieOptions true isProd "lax" (24 * 60 * 60 * 1000).

(** [req.user?.id] *)
Definition userId (req : request) : value :=
  match user req with
  | Some u => id u
  | None => VUndefined
  end.

(** [v.k] where [v] may be nullish. *)
Definition member (v : value) (k : string) : completion value :=
  if nullish v
  then Throw (TypeError
                ("Cannot read properties of undefined (reading '" ++ k ++ "')"))
  else Normal (prop v k).

(** A route: the guard runs first, the handler only if the guard called
    [next()]. *)
Definition route (guard : request -> guarded)
    (handler : request -> M (list effect)) (req : request)
    : M (list effect) :=
  let g := guard req in
  match next g with
  | None => ret (sent g)
  | Some req' => es <- handler req' ;; ret (sent g ++ es)
  end.

(** Handler of [POST /api/login]. *)
Definition postLogin (req : request) : M (list effect) :=
  result <- loginUser (body req) ;;
  match result with
  | loginFailed msg => ret [status 401; json (errorBody msg)]
  | loginPassed chocolateChipCookie preferences =>
      ret [cookie "auth" chocolateChipCookie authCookieOptions;
           json (VObj [("username", prop (body req) "username");
                       ("preferences", preferences)])]
  end.

(** Handler of [POST /api/user]. *)
Definition postUser (req : request) : M (list effect) :=
  tryCatch
    (userId <- createUser (body req) ;;
     login <- loginUser (VObj [("username", prop (body req) "username");
                               ("password", prop (body req) "password")]) ;;
     match login with
     | loginFailed msg =>
         throw (Error (if truthy (VStr msg) then msg
                       else "Unable to login newly created user"))
     | loginPassed chocolateChipCookie preferences =>
         ret [cookie "auth" chocolateChipCookie authCookieOptions;
              status 201;
              json (VObj [("userId", userId);
                          ("username", prop (body req) "username");
                          ("preferences", preferences)])]
     end)
    (fun err => ret [status 400; json (errorBody (message err))]).

(** Handler of [POST /api/preferences]. *)
Definition postPreferences (req : request) : M (list effect) :=
  tryCatch
    (preferences <- lift (member (body req) "preferences") ;;
     if negb (typeof preferences =? "object") then
       ret [status 400; json (errorBody "Invalid preferences format")]
     else if negb (truthy (userId req)) then
       ret [status 401; json (errorBody "not logged in")]
     else
       oid <- lift (Mongo.newObjectId (userId req)) ;;
       Mongo.updateOne oid [("preferences", preferences)] ;;
       ret [json (VObj [("message",
                         VStr "Preferences updated successfully")])])
    (fun _ => ret [status 500; json (errorBody "Server error")]).

(** The [update] object of [POST /api/updateUsr], key by key. *)
Definition withUsername (username : value) (update : list (string * value))
    : list (string * value) :=
  match username with
  | VStr s =>
      if truthy (VStr (trim s))
      then update ++ [("username", VStr (trim s))]
      else update
  | _ => update
  end.

Definition withPreferences (preferences : value)
    (update : list (string * value)) : list (string * value) :=
  if truthy preferences && (typeof preferences =? "object")
  then update ++ [("preferences", preferences)]
  else update.

(** [a ?? b] *)
Definition coalesce (a b : value) : value := if nullish a then b else a.

(** [req.user.username], read after [req.user?.id] was found truthy. *)
Definition userName (req : request) : value :=
  match user req with
  | Some u => username u
  | None => VUndefined
  end.

(** Handler of [POST /api/updateUsr]. *)
Definition postUpdateUsr (req : request) : M (list effect) :=
  tryCatch
    (if nullish (body req) then throw cannotDestructure else
     let username := prop (body req) "username" in
     let preferences := prop (body req) "preferences" in
     if negb (truthy (userId req)) then
       ret [status 401; json (errorBody "not logged in")]
     else
       let update := withPreferences preferences (withUsername username []) in
       if (List.length (keys update) =? 0)%nat then
         ret [status 400; json (errorBody "No valid fields to update")]
       else
         oid <- lift (Mongo.newObjectId (userId req)) ;;
         Mongo.updateOne oid update ;;
         let reissued :=
           if truthy (prop (VObj update) "username") then
             let secret := JWT_SECRET in
             if truthy secret then
               let token :=
                 jwt_sign (VObj [("userId", userId req);
                                 ("username", prop (VObj update) "username")])
                   secret "1d" in
               [cookie "auth" token authCookieOptions]
             else []
           else [] in
         ret (reissued ++
              [json (VObj [("message", VStr "User updated successfully");
                           ("username",
                            coalesce (prop (VObj update) "username")
                              (userName req));
                           ("preferences",
                            prop (VObj update) "preferences")])]))
    (fun _ => ret [status 500; json (errorBody "Server error")]).

End Server.

(* ===================================================================== *)
(** ** Reads, pages and logout *)
(* ===================================================================== *)

(** What a page route does with [res]: one of the calls above,
    [res.sendFile] of a file of the [pages] directory (given relative to
    the server's directory), or [res.clearCookie] with options. *)
Inductive reply : Type :=
| res (e : effect)
| sendFile (path : string)
| clearCookieWith (name : string) (httpOnly secure : bool)
    (sameSite path : string).

(** [v?.k] *)
Definition optionalProp (v : value) (k : string) : value :=
  if nullish v then VUndefined else prop v k.

Section Reads.

Variable jwt_verify : value -> value -> option value.   (* jwt.verify *)
Variable JWT_SECRET : value.                  (* process.env.JWT_SECRET *)
Variable isProd : bool.          (* process.env.NODE_ENV === "production" *)

(** The store's query operators: whether a stored string satisfies a
    filter object such as [{$ne: null}].  They belong to the database. *)
Variable queryOperators : list (string * value) -> string -> bool.

(** Whether the stored username [stored] satisfies [{username: filter}]:
    a string filter asks for equality; an object filter is a query
    document; [undefined] and [null] match only a missing or null field,
    and a number, a boolean or an array never equals a string. *)
Definition usernameMatches (filter : value) (stored : string) : bool :=
  match filter with
  | VStr s => (stored =? s)%string
  | VObj operators => queryOperators operators stored
  | _ => false
  end.

(** [collection("users").findOne({username: filter}, {projection})] *)
Definition findOneBy (filter : value) (d : Mongo.db) : option Mongo.user :=
  find (fun u => usernameMatches filter (Mongo.username u)) (Mongo.users d).

(** Handler of [GET /api/me]. *)
Definition getMe (req : request) : M (list effect) :=
  tryCatch
    (if negb (truthy (userName req)) then
       ret [status 401; json (errorBody "not logged in")]
     else
       user <- query (findOneBy (userName req)) ;;
       match user with
       | None => ret [status 401; json (errorBody "not logged in")]
       | Some user =>
           ret [json (VObj [("username", VStr (Mongo.username user));
                            ("preferences",
                             coalesce (Mongo.preferences user) (VObj []))])]
       end)
    (fun _ => ret [status 500; json (errorBody "server error")]).

(** A page route: as [route], for handlers that may send a file. *)
Definition pageRoute (guard : request -> guarded)
    (handler : request -> M (list reply)) (req : request)
    : M (list reply) :=
  let g := guard req in
  match next g with
  | None => ret (map res (sent g))
  | Some req' => rs <- handler req' ;; ret (map res (sent g) ++ rs)
  end.

(** Handler of [GET /login], [/login.html], [/signup] and [/user.html]:
    the page, unless the request carries an [auth] cookie. *)
Definition anonymousPage (file : string) (req : request) : M (list reply) :=
  if truthy (auth req) then ret [res (redirect "/")]
  else ret [sendFile file].

Definition getLogin : request -> M (list reply) :=
  pageRoute (reverseAuthPage jwt_verify JWT_SECRET)
    (anonymousPage "../pages/login.html").

Definition getSignup : request -> M (list reply) :=
  pageRoute (reverseAuthPage jwt_verify JWT_SECRET)
    (anonymousPage "../pages/user.html").

(** Handler of [GET /logout]. *)
Definition getLogout (req : request) : M (list reply) :=
  ret [clearCookieWith "auth" true isProd "lax" "/"; res (redirect "/")].

Definition logout : request -> M (list reply) :=
  pageRoute (requireAuth jwt_verify JWT_SECRET) getLogout.

(** Handler of [GET /settings], [/dashboard], [/news], [/players],
    [/schedule], [/stats] and [/teams]: the page, if the token's username
    names a record. *)
Definition gatedPage (file : string) (req : request) : M (list reply) :=
  tryCatch
    (user <- query (findOneBy (userName req)) ;;
     match user with
     | None => ret [res (redirect "/")]
     | Some _ => ret [sendFile file]
     end)
    (fun _ => ret [res (redirect "/")]).

(** Handler of [GET /pref]: the team setter, if the record has no team
    yet. *)
Definition prefPage (req : request) : M (list reply) :=
  tryCatch
    (user <- query (findOneBy (userName req)) ;;
     match user with
     | None => ret [res (redirect "/")]
     | Some user =>
         if truthy (optionalProp (Mongo.preferences user) "team")
         then ret [res (redirect "/")]
         else ret [sendFile "../pages/pref.html"]
     end)
    (fun _ => ret [res (redirect "/")]).

(** Handler of [GET /settings.html] and [/pref.html]. *)
Definition directPage (file : string) (req : request) : M (list reply) :=
  ret [sendFile file].

Definition getGated (file : string) : request -> M (list reply) :=
  pageRoute (requireAuthPage jwt_verify JWT_SECRET) (gatedPage file).

Definition getPref : request -> M (list reply) :=
  pageRoute (requireAuthPage jwt_verify JWT_SECRET) prefPage.

Definition getDirect (file : string) : request -> M (list reply) :=
  pageRoute (requireAuthPage jwt_verify JWT_SECRET) (directPage file).

End Reads.

(* ===================================================================== *)
(** ** db.js: the connection singleton *)
(* ===================================================================== *)

Module Connection.

(** [client.db(dbName)] of a client for [uri]. *)
Record handle : Type := mkHandle {
  uri : string;
  dbName : option string
}.

(** The module's two variables, [client] (the connection string its
    client was built from) and [db]. *)
Record state : Type := mkState {
  client : option string;
  db : option handle
}.

Definition initial : state := mkState None None.

(** What the driver does with a connection string: [new MongoClient]
    throws, [client.connect()] rejects, or the connection is made. *)
Inductive driverOutcome : Type :=
| badConnectionString (e : error)
| connectRejected (e : error)
| connected.

(** One call of [connectDB]: the environment it reads and the driver's
    answer at that moment. *)
Record attempt : Type := mkAttempt {
  MONGODB_URI : option string;
  MONGODB_DBNAME : option string;
  driver : string -> driverOutcome
}.

Definition connectDB (a : attempt) (st : state) : state * completion handle :=
  match db st with
  | Some h => (st, Normal h)
  | None =>
      match MONGODB_URI a with
      | None => (st, Throw (Error "Err"))
      | Some uri =>
          if (uri =? "")%string then (st, Throw (Error "Err"))
          else
            match driver a uri with
            | badConnectionString e => (st, Throw e)
            | connectRejected e => (mkState (Some uri) None, Throw e)
            | connected =>
                let h := mkHandle uri (MONGODB_DBNAME a) in
                (mkState (Some uri) (Some h), Normal h)
            end
      end
  end.

Definition getDB (st : state) : completion handle :=
  match db st with
  | Some h => Normal h
  | None => Throw (Error "must connect to DB first")
  end.

(** The module's state after a series of [connectDB] calls. *)
Definition after (attempts : list attempt) (st : state) : state :=
  fold_left (fun s a => fst (connectDB a s)) attempts st.

(** Does this call connect, when none has connected before it? *)
Definition connects (a : attempt) : bool :=
  match MONGODB_URI a with
  | None => false
  | Some uri =>
      negb (uri =? "")%string
      && match driver a uri with
         | connected => true
         | _ => false
         end
  end.

Definition handleOf (a : attempt) : handle :=
  mkHandle (match MONGODB_URI a with Some u => u | None => "" end)
    (MONGODB_DBNAME a).

End Connection.

(* ===================================================================== *)
(** ** The design's rules, in its own words *)
(* ===================================================================== *)

Module Design.

(** "username: must be a string, length >= 3": the rule fails on a
    non-string and on a string shorter than 3. *)
Definition usernameRuleFails (v : value) : Prop :=
  forall s, v = VStr s -> String.length s < 3.

(** "password: must be a string, length >= 6". *)
Definition passwordRuleFails (v : value) : Prop :=
  forall s, v = VStr s -> String.length s < 6.

(** One segment of the e-mail pattern: a non-empty run of characters none
    of which is whitespace (nor the separator [@]). *)
Definition segment (w : list ascii) : Prop :=
  w <> [] /\ Forall (fun c => isWhiteSpace c = false /\ c <> "@"%char) w.

(** "local@domain.tld": a local segment, [@], a domain segment, a literal
    dot, a TLD segment, and nothing else. *)
Definition emailPattern (v : value) : Prop :=
  exists local domain tld,
    v = VStr (string_of_list_ascii
                (local ++ "@"%char :: domain ++ "."%char :: tld))
    /\ segment local /\ segment domain /\ segment tld.

(** "First failing rule wins, returns that specific message". *)
Inductive validation (username password email : value)
    : option string -> Prop :=
| usernameRejected :
    usernameRuleFails username ->
    validation username password email
      (Some "Username must be at least 3 characters long.")
| passwordRejected :
    ~ usernameRuleFails username ->
    passwordRuleFails password ->
    validation username password email
      (Some "Password must be at least 6 characters long.")
| emailRejected :
    ~ usernameRuleFails username ->
    ~ passwordRuleFails password ->
    ~ emailPattern email ->
    validation username password email (Some "Invalid email address.")
| accepted :
    ~ usernameRuleFails username ->
    ~ passwordRuleFails password ->
    emailPattern email ->
    validation username password email None.

(** "A username that is a string with non-whitespace content". *)
Definition usableUsername (v : value) : Prop :=
  exists s c, v = VStr s
              /\ In c (list_ascii_of_string s) /\ isWhiteSpace c = false.

(** "A preferences value that is a truthy object". *)
Definition usablePreferences (v : value) : Prop :=
  truthy v = true /\ typeof v = "object".

(** A string made of whitespace only. *)
Definition blank (s : string) : Prop :=
  Forall (fun c => isWhiteSpace c = true) (list_ascii_of_string s).

(** A value that is not a string. *)
Definition notString (v : value) : Prop := typeof v <> "string".

End Design.

(** The registration request [{username, password, email}]. *)
Definition signup (username password email : value) : value :=
  VObj [("username", username); ("password", password); ("email", email)].

(** The login request [{username, password}]. *)
Definition credentials (username password : value) : value :=
  VObj [("username", username); ("password", password)].

(* ===================================================================== *)
(** ** Notions used to state what the server does *)
(* ===================================================================== *)

Module Notions.

(** The guard would run [jwt.verify] on the request's cookie, and it
    gives [decoded]. *)
Definition verifiedAs (jwt_verify : value -> value -> option value)
    (JWT_SECRET : value) (req : request) (decoded : value) : Prop :=
  truthy JWT_SECRET = true /\ truthy (auth req) = true
  /\ jwt_verify (auth req) JWT_SECRET = Some decoded.

(** The guard would run [jwt.verify] on the request's cookie, and it
    throws. *)
Definition verificationFails (jwt_verify : value -> value -> option value)
    (JWT_SECRET : value) (req : request) : Prop :=
  truthy JWT_SECRET = true /\ truthy (auth req) = true
  /\ jwt_verify (auth req) JWT_SECRET = None.

(** Every stored username and e-mail is in lower case. *)
Definition lowercased (d : Mongo.db) : Prop :=
  Forall (fun u => toLowerCase (Mongo.username u) = Mongo.username u
                   /\ toLowerCase (Mongo.email u) = Mongo.email u)
    (Mongo.users d).

(** What identifies a record and lets its owner in. *)
Definition credentialColumns (u : Mongo.user)
    : Mongo.ObjectId * string * string * N :=
  (Mongo._id u, Mongo.password u, Mongo.email u, Mongo.createdAt u).

Definition withPreferencesOf (u : Mongo.user) (p : value) : Mongo.user :=
  Mongo.mkUser (Mongo._id u) (Mongo.username u) (Mongo.password u)
    (Mongo.email u) p (Mongo.createdAt u).

Definition withUsernameOf (u : Mongo.user) (name : string) : Mongo.user :=
  Mongo.mkUser (Mongo._id u) name (Mongo.password u) (Mongo.email u)
    (Mongo.preferences u) (Mongo.createdAt u).

(** How many times [c] occurs in [s]. *)
Definition occurrences (c : ascii) (s : string) : nat :=
  count_occ ascii_dec (list_ascii_of_string s) c.

(** A reply that sends a file. *)
Definition sendsFile (rs : list reply) : Prop :=
  exists path, In (sendFile path) rs.

Definition isCookie (e : effect) : bool :=
  match e with
  | cookie _ _ _ => true
  | _ => false
  end.

End Notions.

(* ===================================================================== *)
(** ** Facts about the primitives *)
(* ===================================================================== *)

Module RegexFacts.
Import Regex.

Lemma matches_cat r1 r2 w :
  matches (Cat r1 r2) w <->
  exists w1 w2, w = w1 ++ w2 /\ matches r1 w1 /\ matches r2 w2.
Proof.
  split.
  - intro H. inversion H; subst. eauto.
  - intros (w1 & w2 & -> & M1 & M2). constructor; assumption.
Qed.

Lemma matches_alt r1 r2 w :
  matches (Alt r1 r2) w <-> matches r1 w \/ matches r2 w.
Proof.
  split.
  - intro H. inversion H; subst; auto.
  - intros [H | H]; [apply MAltL | apply MAltR]; assumption.
Qed.

Lemma matches_class p w :
  matches (Class p) w <-> exists c, w = [c] /\ p c = true.
Proof.
  split.
  - intro H. inversion H; subst. eauto.
  - intros (c & -> & Hc). constructor. assumption.
Qed.

Lemma nullable_matches (r : regex) : nullable r = true <-> matches r [].
Proof.
  induction r; simpl.
  - split; [discriminate | intro H; inversion H].
  - split; [constructor | reflexivity].
  - split; [discriminate | intro H; inversion H].
  - rewrite orb_true_iff, matches_alt, IHr1, IHr2. reflexivity.
  - rewrite andb_true_iff, matches_cat, IHr1, IHr2. split.
    + intros [M1 M2]. exists [], []. auto.
    + intros (w1 & w2 & E & M1 & M2). symmetry in E.
      apply app_eq_nil in E as [-> ->]. auto.
  - split; [constructor | reflexivity].
Qed.

Lemma matches_cat_cons r1 r2 c w :
  matches (Cat r1 r2) (c :: w) ->
  (exists w1 w2, w = w1 ++ w2 /\ matches r1 (c :: w1) /\ matches r2 w2)
  \/ (matches r1 [] /\ matches r2 (c :: w)).
Proof.
  intro H. apply matches_cat in H as (w1 & w2 & E & M1 & M2).
  destruct w1 as [| a w1]; simpl in E.
  - right. subst. split; assumption.
  - left. injection E as <- ->. exists w1, w2. repeat split; assumption.
Qed.

Lemma matches_star_cons r c w :
  matches (Star r) (c :: w) ->
  exists w1 w2, w = w1 ++ w2 /\ matches r (c :: w1) /\ matches (Star r) w2.
Proof.
  intro H. remember (Star r) as sr eqn:Esr. remember (c :: w) as cw eqn:Ecw.
  revert w Ecw.
  induction H as [| | | | | | r' u1 u2 M1 _ M2 IH2]; intros v Ecw;
    try discriminate.
  injection Esr as ->.
  destruct u1 as [| a u1]; simpl in Ecw.
  - apply IH2; [reflexivity | assumption].
  - injection Ecw as -> <-. exists u1, u2. repeat split; assumption.
Qed.

Lemma deriv_matches (r : regex) :
  forall c w, matches (deriv c r) w <-> matches r (c :: w).
Proof.
  induction r; intros c w; simpl.
  - split; intro H; inversion H.
  - split; intro H; inversion H.
  - rewrite matches_class. destruct (p c) eqn:Ep; split; intro H.
    + inversion H; subst. exists c. auto.
    + destruct H as (c' & E & _). injection E as <- ->. constructor.
    + inversion H.
    + destruct H as (c' & E & Hc). injection E as <- ->. congruence.
  - rewrite !matches_alt, IHr1, IHr2. reflexivity.
  - destruct (nullable r1) eqn:En; split; intro H.
    + apply matches_alt in H as [H | H].
      * apply matches_cat in H as (w1 & w2 & -> & M1 & M2).
        apply matches_cat. exists (c :: w1), w2.
        repeat split; [apply IHr1 |]; assumption.
      * apply matches_cat. exists [], (c :: w).
        repeat split; [apply nullable_matches | apply IHr2]; assumption.
    + apply matches_alt.
      apply matches_cat_cons in H as [(w1 & w2 & -> & M1 & M2) | [M1 M2]].
      * left. apply matches_cat. exists w1, w2.
        repeat split; [apply IHr1 |]; assumption.
      * right. apply IHr2. assumption.
    + apply matches_cat in H as (w1 & w2 & -> & M1 & M2).
      apply matches_cat. exists (c :: w1), w2.
      repeat split; [apply IHr1 |]; assumption.
    + apply matches_cat_cons in H as [(w1 & w2 & -> & M1 & M2) | [M1 M2]].
      * apply matches_cat. exists w1, w2.
        repeat split; [apply IHr1 |]; assumption.
      * apply nullable_matches in M1. congruence.
  - split; intro H.
    + apply matches_cat in H as (w1 & w2 & -> & M1 & M2).
      change (c :: w1 ++ w2) with ((c :: w1) ++ w2).
      apply MStarCons; [apply IHr |]; assumption.
    + apply matches_star_cons in H as (w1 & w2 & -> & M1 & M2).
      apply matches_cat. exists w1, w2.
      repeat split; [apply IHr |]; assumption.
Qed.

(** The matcher decides the denotation. *)
Lemma accepts_matches (w : list ascii) :
  forall r, accepts r w = true <-> matches r w.
Proof.
  induction w as [| c w IH]; intro r; simpl.
  - apply nullable_matches.
  - rewrite IH. apply deriv_matches.
Qed.

Lemma matches_star_class p w :
  matches (Star (Class p)) w <-> Forall (fun c => p c = true) w.
Proof.
  split.
  - intro H. remember (Star (Class p)) as sr eqn:E.
    induction H as [| | | | | | r' w1 w2 M1 _ M2 IH2]; try discriminate.
    + constructor.
    + injection E as ->. apply matches_class in M1 as (c & -> & Hc). simpl.
      constructor; [assumption | apply IH2; reflexivity].
  - induction 1 as [| c w Hc _ IH].
    + constructor.
    + change (c :: w) with ([c] ++ w).
      apply MStarCons; [constructor |]; assumption.
Qed.

Lemma matches_plus_class p w :
  matches (Plus (Class p)) w <-> w <> [] /\ Forall (fun c => p c = true) w.
Proof.
  unfold Plus. rewrite matches_cat. split.
  - intros (w1 & w2 & -> & M1 & M2).
    apply matches_class in M1 as (c & -> & Hc). simpl.
    split; [discriminate |].
    constructor; [assumption | apply matches_star_class; assumption].
  - intros [Hne Hall]. destruct w as [| c w]; [congruence |].
    inversion Hall; subst. exists [c], w.
    repeat split; [constructor | apply matches_star_class]; assumption.
Qed.

Lemma matches_lit c w : matches (Lit c) w <-> w = [c].
Proof.
  unfold Lit. rewrite matches_class. split.
  - intros (c' & -> & Hc). apply Ascii.eqb_eq in Hc. congruence.
  - intros ->. exists c. split; [reflexivity | apply Ascii.eqb_refl].
Qed.

End RegexFacts.

Module StringFacts.
Import Design.

Lemma trimStart_empty (s : string) : trimStart s = "" <-> blank s.
Proof.
  unfold blank. induction s as [| c s IH]; simpl.
  - split; [constructor | reflexivity].
  - destruct (isWhiteSpace c) eqn:Ec.
    + rewrite IH. split.
      * intro H. constructor; assumption.
      * intro H. inversion H; assumption.
    + split; [discriminate |]. intro H. inversion H; congruence.
Qed.

Lemma trimEnd_empty (s : string) : trimEnd s = "" <-> blank s.
Proof.
  unfold blank. induction s as [| c s IH]; simpl.
  - split; [constructor | reflexivity].
  - destruct (trimEnd s) eqn:Et.
    + destruct (isWhiteSpace c) eqn:Ec.
      * split; [| reflexivity]. intros _.
        constructor; [assumption | apply IH; reflexivity].
      * split; [discriminate |]. intro H. inversion H; congruence.
    + split; [discriminate |]. intro H. inversion H; subst.
      assert (E : String a s0 = "") by (apply IH; assumption).
      discriminate.
Qed.

Lemma trimStart_blank (s : string) : blank (trimStart s) <-> blank s.
Proof.
  unfold blank. induction s as [| c s IH]; simpl.
  - reflexivity.
  - destruct (isWhiteSpace c) eqn:Ec.
    + rewrite IH. split.
      * intro H. constructor; assumption.
      * intro H. inversion H; assumption.
    + reflexivity.
Qed.

(** [s.trim()] is empty exactly when [s] is all whitespace. *)
Lemma trim_empty (s : string) : trim s = "" <-> blank s.
Proof.
  unfold trim. rewrite trimEnd_empty. apply trimStart_blank.
Qed.

(** A string is not blank exactly when it has a non-whitespace
    character. *)
Lemma not_blank (s : string) :
  ~ blank s <->
  exists c, In c (list_ascii_of_string s) /\ isWhiteSpace c = false.
Proof.
  unfold blank. rewrite <- Exists_exists. split.
  - intro H. apply neg_Forall_Exists_neg in H.
    + eapply Exists_impl; [| exact H]. intros c Hc. simpl in Hc.
      destruct (isWhiteSpace c); congruence.
    + intro c. destruct (isWhiteSpace c); [left | right]; congruence.
  - intros H HF. apply Exists_exists in H as (c & Hin & Hc).
    rewrite Forall_forall in HF. specialize (HF c Hin). congruence.
Qed.

Lemma truthy_trim (s : string) :
  truthy (VStr (trim s)) = true <-> Design.usableUsername (VStr s).
Proof.
  unfold Design.usableUsername. simpl.
  rewrite negb_true_iff, String.eqb_neq, trim_empty, not_blank. split.
  - intros (c & Hin & Hc). exists s, c. auto.
  - intros (s' & c & E & Hin & Hc). injection E as <-. eauto.
Qed.

Lemma notSpaceOrAt_spec (c : ascii) :
  notSpaceOrAt c = true <-> isWhiteSpace c = false /\ c <> "@"%char.
Proof.
  unfold notSpaceOrAt.
  rewrite negb_true_iff, orb_false_iff, Ascii.eqb_neq. reflexivity.
Qed.

Lemma segment_plus (w : list ascii) :
  Regex.matches (Regex.Plus (Regex.Class notSpaceOrAt)) w <-> Design.segment w.
Proof.
  rewrite RegexFacts.matches_plus_class. unfold Design.segment.
  rewrite !Forall_forall.
  split; intros [Hne H]; (split; [assumption |]); intros c Hin;
    apply notSpaceOrAt_spec, H, Hin.
Qed.

(** The regular expression of [validate] accepts exactly the strings of
    the shape [local@domain.tld]. *)
Lemma emailRegex_spec (s : string) :
  Regex.test emailRegex s = true <-> Design.emailPattern (VStr s).
Proof.
  unfold Regex.test, emailRegex, Design.emailPattern.
  rewrite RegexFacts.accepts_matches. split.
  - intro H.
    apply RegexFacts.matches_cat in H as (l & r1 & E1 & Ml & H).
    apply RegexFacts.matches_cat in H as (a & r2 & E2 & Ma & H).
    apply RegexFacts.matches_cat in H as (d & r3 & E3 & Md & H).
    apply RegexFacts.matches_cat in H as (o & t & E4 & Mo & Mt).
    apply RegexFacts.matches_lit in Ma, Mo. subst.
    exists l, d, t.
    split; [| split; [| split]]; try (apply segment_plus; assumption).
    f_equal. simpl in E1. rewrite <- E1.
    symmetry. apply string_of_list_ascii_of_string.
  - intros (l & d & t & E & Sl & Sd & St). injection E as ->.
    rewrite list_ascii_of_string_of_list_ascii.
    apply RegexFacts.matches_cat. exists l, ("@"%char :: d ++ "."%char :: t).
    repeat split; [apply segment_plus; assumption |].
    apply RegexFacts.matches_cat. exists ["@"%char], (d ++ "."%char :: t).
    repeat split; [apply RegexFacts.matches_lit; reflexivity |].
    apply RegexFacts.matches_cat. exists d, ("."%char :: t).
    repeat split; [apply segment_plus; assumption |].
    apply RegexFacts.matches_cat. exists ["."%char], t.
    repeat split; [apply RegexFacts.matches_lit; reflexivity |].
    apply segment_plus; assumption.
Qed.

End StringFacts.

(* ===================================================================== *)
(** ** Registration: validation *)
(* ===================================================================== *)

Module ValidateFacts.
Import Design.

Lemma length_rule (n : nat) (v : value) :
  0 < n ->
  (negb (truthy v) || negb (typeof v =? "string") || shorterThan v n = true)
  <-> (forall s, v = VStr s -> String.length s < n).
Proof.
  intro Hn. destruct v as [| | b | z | s | items | fields];
    try (split;
         [ intros _ s' E; discriminate E
         | intros _; apply orb_true_iff; left; apply orb_true_iff; right;
           reflexivity ]).
  simpl. rewrite orb_false_r. destruct s as [| c s]; simpl.
  - split; [intros _ s' E; injection E as <-; simpl; lia | reflexivity].
  - split.
    + intros H s' E. injection E as <-. apply Nat.ltb_lt in H. exact H.
    + intro H. apply Nat.ltb_lt. exact (H _ eq_refl).
Qed.

Lemma email_rule (v : value) :
  (negb (truthy v) || negb (typeof v =? "string") || failsRegex v = true)
  <-> ~ emailPattern v.
Proof.
  destruct v as [| | b | z | s | items | fields];
    try (split;
         [ intros _ (l & d & t & E & _); discriminate E
         | intros _; apply orb_true_iff; left; apply orb_true_iff; right;
           reflexivity ]).
  simpl. rewrite orb_false_r.
  rewrite <- StringFacts.emailRegex_spec.
  destruct s as [| c s]; simpl.
  - split; [intros _ H; discriminate | reflexivity].
  - rewrite negb_true_iff. split; intro H.
    + rewrite H. discriminate.
    + apply not_true_is_false. exact H.
Qed.

Lemma passes_string (v : value) (b : bool) :
  negb (truthy v) || negb (typeof v =? "string") || b = false ->
  exists s, v = VStr s.
Proof.
  intro H. apply orb_false_iff in H as [H _].
  apply orb_false_iff in H as [_ H].
  destruct v; try discriminate H. eauto.
Qed.

End ValidateFacts.

(** C9.  [validate] applies the three rules in order and the first one
    that fails decides: a username that is not a string of length at
    least 3 gives the username message; otherwise a password that is not a
    string of length at least 6 gives the password message; otherwise an
    e-mail that is not of the shape [local@domain.tld] gives the e-mail
    message; otherwise validation passes.  On a rejection [createUser]
    throws that message and leaves the store as it was; on a pass it goes
    on to the insert with the lower-cased username and e-mail. *)
Theorem validate_first_failing_rule :
  forall (bcrypt_hash : string -> nat -> string) (Date_now : N)
         (username password email preferences : value) (d : Mongo.db),
    Design.validation username password email
      (validate username password email preferences)
    /\ match validate username password email preferences with
       | Some msg =>
           createUser bcrypt_hash Date_now
             (signup username password email) d
           = (d, Throw (Error msg))
       | None =>
           exists u p e,
             username = VStr u /\ password = VStr p /\ email = VStr e
             /\ fst (createUser bcrypt_hash Date_now
                       (signup username password email) d)
                = fst (Mongo.insertOne (toLowerCase u)
                         (bcrypt_hash p SALT_ROUNDS) (toLowerCase e)
                         (VObj []) Date_now d)
       end.
Proof.
  intros hash now username password email preferences d.
  assert (HU := @ValidateFacts.length_rule 3 username ltac:(lia)).
  assert (HP := @ValidateFacts.length_rule 6 password ltac:(lia)).
  assert (HE := ValidateFacts.email_rule email).
  unfold createUser, signup.
  cbn [nullish prop assoc String.eqb Ascii.eqb Bool.eqb].
  unfold validate.
  revert HU HP HE.
  destruct (negb (truthy username) || negb (typeof username =? "string")
            || shorterThan username 3) eqn:EU; intros HU HP HE.
  { split; [| reflexivity].
    apply Design.usernameRejected. exact (proj1 HU eq_refl). }
  assert (NU : ~ Design.usernameRuleFails username).
  { intro H. apply (proj2 HU) in H. discriminate. }
  revert HP HE.
  destruct (negb (truthy password) || negb (typeof password =? "string")
            || shorterThan password 6) eqn:EP; intros HP HE.
  { split; [| reflexivity].
    apply Design.passwordRejected; [assumption | exact (proj1 HP eq_refl)]. }
  assert (NP : ~ Design.passwordRuleFails password).
  { intro H. apply (proj2 HP) in H. discriminate. }
  revert HE.
  destruct (negb (truthy email) || negb (typeof email =? "string")
            || failsRegex email) eqn:EE; intros HE.
  { split; [| reflexivity].
    apply Design.emailRejected; try assumption. exact (proj1 HE eq_refl). }
  destruct (ValidateFacts.passes_string _ _ EU) as [u ->].
  destruct (ValidateFacts.passes_string _ _ EP) as [p ->].
  destruct (ValidateFacts.passes_string _ _ EE) as [e ->].
  assert (PE : Design.emailPattern (VStr e)).
  { apply StringFacts.emailRegex_spec.
    apply orb_false_iff in EE as [_ EE]. apply negb_false_iff in EE.
    exact EE. }
  split; [apply Design.accepted; assumption |].
  exists u, p, e. repeat split.
  unfold bind, tryCatch, ret, encryptPassword.
  destruct (Mongo.insertOne (toLowerCase u) (hash p SALT_ROUNDS)
              (toLowerCase e) (VObj []) now d) as [d' [i | err]] eqn:EI.
  - reflexivity.
  - simpl. destruct (code err) as [c |]; [destruct (c =? 11000)%Z |];
      reflexivity.
Qed.

(* ===================================================================== *)
(** ** Registration: what [createUser] hands back *)
(* ===================================================================== *)

(** Whatever it is given, [createUser] has no normal completion: every
    path through it ends in a [throw]. *)
Lemma createUser_never_returns :
  forall (bcrypt_hash : string -> nat -> string) (Date_now : N)
         (arg : value) (d d' : Mongo.db) (v : value),
    createUser bcrypt_hash Date_now arg d <> (d', Normal v).
Proof.
  intros hash now arg d d' v. unfold createUser.
  destruct (nullish arg); [discriminate |].
  destruct (validate _ _ _ _); [discriminate |].
  destruct (prop arg "username"); try discriminate.
  destruct (prop arg "password"); try discriminate.
  destruct (prop arg "email"); try discriminate.
  unfold bind, tryCatch.
  destruct (Mongo.insertOne _ _ _ _ _ d) as [d1 [i | e]].
  - discriminate.
  - destruct (match code e with Some c => (c =? 11000)%Z | None => false end);
      discriminate.
Qed.

(** C1 (the code departs from the claim).  A valid registration whose
    insert succeeds does not return the new identity: the record is
    inserted, and then [createUser] throws [ReferenceError: result is not
    defined], which the route turns into a 400. *)
Theorem createUser_valid_input_throws :
  forall (bcrypt_hash : string -> nat -> string)
         (bcrypt_compare : string -> string -> bool)
         (jwt_sign : value -> value -> string -> string)
         (JWT_SECRET : value) (isProd : bool) (Date_now : N),
    let arg := signup (VStr "alice") (VStr "secret1")
                 (VStr "alice@example.com") in
    let stored :=
      Mongo.mkDb
        [Mongo.mkUser "000000000000000000000000" "alice"
           (bcrypt_hash "secret1" 15) "alice@example.com" (VObj [])
           Date_now] 1 in
    createUser bcrypt_hash Date_now arg Mongo.empty
    = (stored, Throw (ReferenceError "result is not defined"))
    /\ postUser bcrypt_hash bcrypt_compare jwt_sign JWT_SECRET isProd
         Date_now (mkRequest VUndefined arg None) Mongo.empty
       = (stored,
          Normal [status 400; json (errorBody "result is not defined")]).
Proof.
  intros. split; reflexivity.
Qed.

(* ===================================================================== *)
(** ** Registration followed by login *)
(* ===================================================================== *)

Module StoreFacts.

Lemma find_last (A : Type) (f : A -> bool) (l : list A) (x : A) :
  existsb f l = false -> find f (l ++ [x]) = if f x then Some x else None.
Proof.
  induction l as [| a l IH]; simpl; intro H.
  - reflexivity.
  - apply orb_false_iff in H as [Ha Hl]. rewrite Ha. apply IH, Hl.
Qed.

Lemma existsb_weaken (A : Type) (f g : A -> bool) (l : list A) :
  (forall a, g a = true -> f a = true) ->
  existsb f l = false -> existsb g l = false.
Proof.
  intros Hfg. induction l as [| a l IH]; simpl; intro H.
  - reflexivity.
  - apply orb_false_iff in H as [Ha Hl]. rewrite (IH Hl), orb_false_r.
    destruct (g a) eqn:Eg; [| reflexivity].
    rewrite (Hfg a Eg) in Ha. discriminate.
Qed.

(** Looking up [name] in a store to which a record was just added. *)
Lemma findOne_after_insert (name uname pw mail : string) (prefs : value)
    (now : N) (d : Mongo.db) :
  Mongo.findOne name d = None ->
  Mongo.findOne name
    (Mongo.mkDb
       (Mongo.users d ++ [Mongo.mkUser (Mongo.freshId d) uname pw mail prefs now])
       (Mongo.counter d + 1))
  = if (uname =? name)%string
    then Some (Mongo.mkUser (Mongo.freshId d) uname pw mail prefs now)
    else None.
Proof.
  unfold Mongo.findOne. simpl. intro H.
  apply find_last.
  destruct (existsb _ _) eqn:E; [| reflexivity].
  apply existsb_exists in E as (x & Hin & Hx).
  eapply find_none in H; [| exact Hin]. simpl in H. congruence.
Qed.

Lemma collides_findOne (uname mail : string) (d : Mongo.db) :
  Mongo.collides uname mail d = false -> Mongo.findOne uname d = None.
Proof.
  unfold Mongo.collides, Mongo.findOne. intro H.
  destruct (find _ _) as [x |] eqn:E; [| reflexivity].
  apply find_some in E as [Hin Hx].
  assert (existsb (fun u => (Mongo.username u =? uname)%string
                            || (Mongo.email u =? mail)%string)
            (Mongo.users d) = true).
  { apply existsb_exists. exists x. rewrite Hx. auto. }
  congruence.
Qed.

End StoreFacts.

(** The store a valid, non-colliding registration leaves behind, and how
    [createUser] finishes on it. *)
Lemma createUser_inserts :
  forall (bcrypt_hash : string -> nat -> string) (Date_now : N)
         (u p e : string) (d : Mongo.db),
    validate (VStr u) (VStr p) (VStr e) (VObj []) = None ->
    Mongo.collides (toLowerCase u) (toLowerCase e) d = false ->
    createUser bcrypt_hash Date_now (signup (VStr u) (VStr p) (VStr e)) d
    = (Mongo.mkDb
         (Mongo.users d ++
          [Mongo.mkUser (Mongo.freshId d) (toLowerCase u)
             (bcrypt_hash p SALT_ROUNDS) (toLowerCase e) (VObj []) Date_now])
         (Mongo.counter d + 1),
       Throw (ReferenceError "result is not defined")).
Proof.
  intros hash now u p e d HV HC. unfold createUser, signup.
  cbn [nullish prop assoc String.eqb Ascii.eqb Bool.eqb].
  rewrite HV. unfold bind, tryCatch, ret, encryptPassword, Mongo.insertOne.
  rewrite HC. reflexivity.
Qed.

(** Where the two normalisations agree, the design's property holds:
    after a valid registration, logging in with the same username and
    password passes, with a token signed for the new record, and a guard
    that verifies this token attaches the new record's identity. *)
Lemma login_after_registration_agreeing :
  forall (bcrypt_hash : string -> nat -> string)
         (bcrypt_compare : string -> string -> bool)
         (jwt_sign : value -> value -> string -> string)
         (jwt_verify : value -> value -> option value)
         (JWT_SECRET : value) (Date_now : N)
         (u p e : string) (d : Mongo.db) (decoded : value),
    validate (VStr u) (VStr p) (VStr e) (VObj []) = None ->
    Mongo.collides (toLowerCase u) (toLowerCase e) d = false ->
    trim u = toLowerCase u ->
    bcrypt_compare p (bcrypt_hash p SALT_ROUNDS) = true ->
    truthy JWT_SECRET = true ->
    let d' := fst (createUser bcrypt_hash Date_now
                     (signup (VStr u) (VStr p) (VStr e)) d) in
    let token :=
      jwt_sign (VObj [("userId", VStr (Mongo.freshId d));
                      ("username", VStr (toLowerCase u))]) JWT_SECRET "1d" in
    loginUser bcrypt_compare jwt_sign JWT_SECRET
      (credentials (VStr u) (VStr p)) d'
    = (d', Normal (loginPassed token (VObj [])))
    /\ (truthy (VStr token) = true ->
        jwt_verify (VStr token) JWT_SECRET = Some decoded ->
        prop decoded "userId" = VStr (Mongo.freshId d) ->
        forall b,
          next (requireAuth jwt_verify JWT_SECRET
                  (mkRequest (VStr token) b None))
          = Some (mkRequest (VStr token) b
                    (Some (mkIdentity (VStr (Mongo.freshId d))
                             (prop decoded "username"))))).
Proof.
  intros hash compare sign verify secret now u p e d decoded
         HV HC HT HB HS d' token.
  split.
  - subst d'. rewrite (createUser_inserts hash now u p e d HV HC).
    unfold loginUser, credentials, query, bind, lift, ret, signAuthToken.
    cbn [nullish prop assoc String.eqb Ascii.eqb Bool.eqb fst].
    rewrite HT.
    rewrite StoreFacts.findOne_after_insert
      by (eapply StoreFacts.collides_findOne; exact HC).
    rewrite String.eqb_refl. cbn [Mongo.password Mongo.preferences].
    rewrite HB, HS. reflexivity.
  - intros Htok Hver Hid b. unfold requireAuth. cbn [auth].
    rewrite HS, Htok. cbn [negb]. rewrite Hver. unfold attach.
    cbn [next auth body]. rewrite Hid. reflexivity.
Qed.

(** Where they disagree it does not: the record is stored under
    [toLowerCase u] and looked up under [trim u]. *)
Lemma login_after_registration_disagreeing :
  forall (bcrypt_hash : string -> nat -> string)
         (bcrypt_compare : string -> string -> bool)
         (jwt_sign : value -> value -> string -> string)
         (JWT_SECRET : value) (Date_now : N)
         (u p e : string) (d : Mongo.db),
    validate (VStr u) (VStr p) (VStr e) (VObj []) = None ->
    Mongo.collides (toLowerCase u) (toLowerCase e) d = false ->
    Mongo.findOne (trim u) d = None ->
    trim u <> toLowerCase u ->
    let d' := fst (createUser bcrypt_hash Date_now
                     (signup (VStr u) (VStr p) (VStr e)) d) in
    loginUser bcrypt_compare jwt_sign JWT_SECRET
      (credentials (VStr u) (VStr p)) d'
    = (d', Normal (loginFailed "Invalid username or password")).
Proof.
  intros hash compare sign secret now u p e d HV HC HF HT d'.
  subst d'. rewrite (createUser_inserts hash now u p e d HV HC).
  unfold loginUser, credentials, query, bind, lift, ret.
  cbn [nullish prop assoc String.eqb Ascii.eqb Bool.eqb fst].
  rewrite StoreFacts.findOne_after_insert by exact HF.
  destruct (toLowerCase u =? trim u)%string eqn:E; [| reflexivity].
  apply String.eqb_eq in E. congruence.
Qed.

(** C2 (the code departs from the claim).  Registering ["Alice"] stores
    the record under ["alice"]; logging in with the same ["Alice"] and the
    same password looks up ["Alice"], finds nothing and fails, and the
    registration route answers 400 although the record was created. *)
Theorem login_after_mixed_case_registration_fails :
  forall (bcrypt_hash : string -> nat -> string)
         (bcrypt_compare : string -> string -> bool)
         (jwt_sign : value -> value -> string -> string)
         (JWT_SECRET : value) (Date_now : N),
    let d' := fst (createUser bcrypt_hash Date_now
                     (signup (VStr "Alice") (VStr "secret1")
                        (VStr "alice@example.com")) Mongo.empty) in
    Mongo.users d'
    = [Mongo.mkUser "000000000000000000000000" "alice"
         (bcrypt_hash "secret1" 15) "alice@example.com" (VObj []) Date_now]
    /\ loginUser bcrypt_compare jwt_sign JWT_SECRET
         (credentials (VStr "Alice") (VStr "secret1")) d'
       = (d', Normal (loginFailed "Invalid username or password")).
Proof.
  intros. split; reflexivity.
Qed.

(* ===================================================================== *)
(** ** Preference replacement and profile update *)
(* ===================================================================== *)

(** A [preferences] value whose [typeof] is not ["object"] is refused with
    400 and the store is left alone. *)
Lemma postPreferences_rejects_non_objects :
  forall (req : request) (d : Mongo.db),
    nullish (body req) = false ->
    typeof (prop (body req) "preferences") <> "object" ->
    postPreferences req d
    = (d, Normal [status 400; json (errorBody "Invalid preferences format")]).
Proof.
  intros req d HB HT. unfold postPreferences, tryCatch, bind, lift, member.
  rewrite HB.
  apply String.eqb_neq in HT. rewrite HT. reflexivity.
Qed.

(** C3 (the code departs from the claim).  [typeof null] is ["object"]:
    an authenticated full-replace with [{preferences: null}] is answered
    200 and the stored preferences become [null]. *)
Theorem postPreferences_null_is_stored :
  let alice prefs :=
    Mongo.mkUser "000000000000000000000000" "alice" "$2b$15$hash"
      "alice@example.com" prefs 0 in
  let req :=
    mkRequest (VStr "token") (VObj [("preferences", VNull)])
      (Some (mkIdentity (VStr "000000000000000000000000") (VStr "alice"))) in
  postPreferences req (Mongo.mkDb [alice (VObj [("team", VStr "NE")])] 1)
  = (Mongo.mkDb [alice VNull] 1,
     Normal [json (VObj [("message",
                          VStr "Preferences updated successfully")])])
  /\ statusOf [json (VObj [("message",
                            VStr "Preferences updated successfully")])] = 200.
Proof.
  split; reflexivity.
Qed.

(** What [POST /api/updateUsr] writes as the username is the trimmed
    input, whatever its case. *)
Lemma withUsername_trims :
  forall (s : string),
    truthy (VStr (trim s)) = true ->
    assoc "username" (withPreferences VUndefined (withUsername (VStr s) []))
    = Some (VStr (trim s)).
Proof.
  intros s H. unfold withUsername, withPreferences. rewrite H.
  reflexivity.
Qed.

(** C6 (the code departs from the claim).  Renaming to ["Bob"] through
    [POST /api/updateUsr] persists ["Bob"], not ["bob"]: the username is
    trimmed but not lower-cased. *)
Theorem postUpdateUsr_keeps_case :
  forall (jwt_sign : value -> value -> string -> string)
         (JWT_SECRET : value) (isProd : bool),
    let alice name :=
      Mongo.mkUser "000000000000000000000000" name "$2b$15$hash"
        "alice@example.com" (VObj []) 0 in
    let req :=
      mkRequest (VStr "token") (VObj [("username", VStr " Bob ")])
        (Some (mkIdentity (VStr "000000000000000000000000")
                 (VStr "alice"))) in
    fst (postUpdateUsr jwt_sign JWT_SECRET isProd req
           (Mongo.mkDb [alice "alice"] 1))
    = Mongo.mkDb [alice "Bob"] 1
    /\ toLowerCase "Bob" = "bob"
    /\ "Bob" <> toLowerCase "Bob".
Proof.
  intros. split; [| split]; [reflexivity | reflexivity | discriminate].
Qed.

(** With a body to read from, an authenticated profile update that
    supplies neither a username with non-whitespace content nor a truthy
    object as preferences is answered 400 "No valid fields to update";
    the store is untouched and no cookie is issued. *)
Theorem postUpdateUsr_nothing_to_update :
  forall (jwt_sign : value -> value -> string -> string)
         (JWT_SECRET : value) (isProd : bool)
         (req : request) (d : Mongo.db),
    nullish (body req) = false ->
    truthy (userId req) = true ->
    ~ Design.usableUsername (prop (body req) "username") ->
    ~ Design.usablePreferences (prop (body req) "preferences") ->
    postUpdateUsr jwt_sign JWT_SECRET isProd req d
    = (d, Normal [status 400; json (errorBody "No valid fields to update")]).
Proof.
  intros sign secret isProd req d HB HI HU HP.
  unfold postUpdateUsr, tryCatch. rewrite HB, HI. cbn [negb].
  assert (EU : withUsername (prop (body req) "username") [] = []).
  { unfold withUsername. destruct (prop (body req) "username"); try reflexivity.
    destruct (truthy (VStr (trim s))) eqn:E; [| reflexivity].
    apply StringFacts.truthy_trim in E. contradiction. }
  assert (EP : withPreferences (prop (body req) "preferences") [] = []).
  { unfold withPreferences.
    destruct (truthy (prop (body req) "preferences")) eqn:E1; [| reflexivity].
    destruct (typeof (prop (body req) "preferences") =? "object")%string
      eqn:E2; [| reflexivity].
    apply String.eqb_eq in E2. exfalso. apply HP. split; assumption. }
  rewrite EU, EP. reflexivity.
Qed.

Lemma postUpdateUsr_nothing_to_update_witness :
  let req :=
    mkRequest (VStr "token")
      (VObj [("username", VStr "   "); ("preferences", VNull)])
      (Some (mkIdentity (VStr "000000000000000000000000")
               (VStr "alice"))) in
  let d :=
    Mongo.mkDb
      [Mongo.mkUser "000000000000000000000000" "alice" "$2b$15$hash"
         "alice@example.com" (VObj []) 0] 1 in
  postUpdateUsr (fun _ _ _ => "signed") (VStr "secret") false req d
  = (d, Normal [status 400; json (errorBody "No valid fields to update")]).
Proof.
  intros req d.
  apply (postUpdateUsr_nothing_to_update (fun _ _ _ => "signed")
           (VStr "secret") false req d).
  - reflexivity.
  - reflexivity.
  - intros (s & c & E & Hin & Hc). injection E as <-.
    simpl in Hin. decompose [or] Hin; subst; try discriminate; contradiction.
  - intros [H _]. discriminate H.
Defined.

(** The claim of C10 fails as stated: an authenticated request with no
    body at all supplies neither field, and is answered 500 "Server
    error", not 400, for reading [username] and [preferences] off an
    undefined [req.body] throws and the handler's [catch] takes over. *)
Lemma postUpdateUsr_without_body_answers_500 :
  truthy (userId (mkRequest (VStr "token") VUndefined
                    (Some (mkIdentity (VStr "000000000000000000000000")
                             (VStr "alice"))))) = true
  /\ ~ Design.usableUsername (prop VUndefined "username")
  /\ ~ Design.usablePreferences (prop VUndefined "preferences")
  /\ postUpdateUsr (fun _ _ _ => "signed") (VStr "secret") false
       (mkRequest (VStr "token") VUndefined
          (Some (mkIdentity (VStr "000000000000000000000000")
                   (VStr "alice"))))
       (Mongo.mkDb
          [Mongo.mkUser "000000000000000000000000" "alice" "$2b$15$hash"
             "alice@example.com" (VObj []) 0] 1)
     = (Mongo.mkDb
          [Mongo.mkUser "000000000000000000000000" "alice" "$2b$15$hash"
             "alice@example.com" (VObj []) 0] 1,
        Normal [status 500; json (errorBody "Server error")])
  /\ postUpdateUsr (fun _ _ _ => "signed") (VStr "secret") false
       (mkRequest (VStr "token") VUndefined
          (Some (mkIdentity (VStr "000000000000000000000000")
                   (VStr "alice"))))
       (Mongo.mkDb
          [Mongo.mkUser "000000000000000000000000" "alice" "$2b$15$hash"
             "alice@example.com" (VObj []) 0] 1)
     <> (Mongo.mkDb
           [Mongo.mkUser "000000000000000000000000" "alice" "$2b$15$hash"
              "alice@example.com" (VObj []) 0] 1,
         Normal [status 400; json (errorBody "No valid fields to update")]).
Proof.
  split; [reflexivity |]. split; [| split; [| split]].
  - intros (s & c & E & _). discriminate E.
  - intros [H _]. discriminate H.
  - reflexivity.
  - discriminate.
Qed.

(** C10, amended.  An authenticated profile update that supplies neither
    a username with non-whitespace content nor a truthy object as
    preferences changes nothing in the store and issues no cookie; it is
    answered 400 "No valid fields to update" when the request has a body,
    and 500 "Server error" when [req.body] is undefined or null. *)
Theorem postUpdateUsr_no_valid_fields :
  forall (jwt_sign : value -> value -> string -> string)
         (JWT_SECRET : value) (isProd : bool)
         (req : request) (d : Mongo.db),
    truthy (userId req) = true ->
    ~ Design.usableUsername (prop (body req) "username") ->
    ~ Design.usablePreferences (prop (body req) "preferences") ->
    postUpdateUsr jwt_sign JWT_SECRET isProd req d
    = (d, Normal (if nullish (body req)
                  then [status 500; json (errorBody "Server error")]
                  else [status 400;
                        json (errorBody "No valid fields to update")])).
Proof.
  intros sign secret isProd req d HI HU HP.
  destruct (nullish (body req)) eqn:HB.
  - unfold postUpdateUsr, tryCatch. rewrite HB. reflexivity.
  - unfold postUpdateUsr, tryCatch. rewrite HB, HI. cbn [negb].
    assert (EU : withUsername (prop (body req) "username") [] = []).
    { unfold withUsername.
      destruct (prop (body req) "username"); try reflexivity.
      destruct (truthy (VStr (trim s))) eqn:E; [| reflexivity].
      apply StringFacts.truthy_trim in E. contradiction. }
    rewrite EU. unfold withPreferences.
    destruct (truthy (prop (body req) "preferences")) eqn:E1;
      [| reflexivity].
    destruct (typeof (prop (body req) "preferences") =? "object")%string
      eqn:E2; [| reflexivity].
    apply String.eqb_eq in E2. exfalso. apply HP. split; assumption.
Qed.

Lemma postUpdateUsr_no_valid_fields_witness :
  postUpdateUsr (fun _ _ _ => "signed") (VStr "secret") false
    (mkRequest (VStr "token")
       (VObj [("username", VStr "   "); ("preferences", VNull)])
       (Some (mkIdentity (VStr "000000000000000000000000")
                (VStr "alice"))))
    (Mongo.mkDb
       [Mongo.mkUser "000000000000000000000000" "alice" "$2b$15$hash"
          "alice@example.com" (VObj []) 0] 1)
  = (Mongo.mkDb
       [Mongo.mkUser "000000000000000000000000" "alice" "$2b$15$hash"
          "alice@example.com" (VObj []) 0] 1,
     Normal [status 400; json (errorBody "No valid fields to update")]).
Proof.
  apply (postUpdateUsr_no_valid_fields (fun _ _ _ => "signed")
           (VStr "secret") false
           (mkRequest (VStr "token")
              (VObj [("username", VStr "   "); ("preferences", VNull)])
              (Some (mkIdentity (VStr "000000000000000000000000")
                       (VStr "alice"))))
           (Mongo.mkDb
              [Mongo.mkUser "000000000000000000000000" "alice" "$2b$15$hash"
                 "alice@example.com" (VObj []) 0] 1)).
  - reflexivity.
  - intros (s & c & E & Hin & Hc). injection E as <-.
    simpl in Hin. decompose [or] Hin; subst; try discriminate; contradiction.
  - intros [H _]. discriminate H.
Defined.

(* ===================================================================== *)
(** ** Login failures *)
(* ===================================================================== *)

(** The claim of C4 fails as stated: a numeric username is refused with a
    message of its own, which is not the generic one. *)
Lemma loginUser_non_string_message_differs :
  loginUser (fun _ _ => true) (fun _ _ _ => "signed") (VStr "secret")
    (credentials (VNum 5) (VStr "secret1")) Mongo.empty
  = (Mongo.empty,
     Normal (loginFailed "Username and password must be strings"))
  /\ loginUser (fun _ _ => true) (fun _ _ _ => "signed") (VStr "secret")
       (credentials (VNum 5) (VStr "secret1")) Mongo.empty
     <> (Mongo.empty, Normal (loginFailed "Invalid username or password")).
Proof.
  split; [reflexivity | discriminate].
Qed.

(** C4, amended.  When the username or the password is not a string,
    [loginUser] fails without consulting the store, with the message
    "Username and password must be strings", and the login route answers
    401 with that message. *)
Theorem loginUser_non_string_rejected :
  forall (bcrypt_compare : string -> string -> bool)
         (jwt_sign : value -> value -> string -> string)
         (JWT_SECRET : value) (isProd : bool)
         (req : request) (d : Mongo.db),
    nullish (body req) = false ->
    Design.notString (prop (body req) "username")
    \/ Design.notString (prop (body req) "password") ->
    loginUser bcrypt_compare jwt_sign JWT_SECRET (body req) d
    = (d, Normal (loginFailed "Username and password must be strings"))
    /\ postLogin bcrypt_compare jwt_sign JWT_SECRET isProd req d
       = (d, Normal [status 401;
                     json (errorBody "Username and password must be strings")]).
Proof.
  intros compare sign secret isProd req d HB HN.
  assert (HL : loginUser compare sign secret (body req) d
               = (d, Normal (loginFailed
                               "Username and password must be strings"))).
  { unfold loginUser. rewrite HB. unfold Design.notString in HN.
    destruct (prop (body req) "username"), (prop (body req) "password");
      try reflexivity.
    simpl in HN. destruct HN as [H | H]; congruence. }
  split; [exact HL |].
  unfold postLogin, bind. rewrite HL. reflexivity.
Qed.

Lemma loginUser_non_string_rejected_witness :
  let req := mkRequest VUndefined (credentials (VNum 5) (VStr "secret1"))
               None in
  loginUser (fun _ _ => true) (fun _ _ _ => "signed") (VStr "secret")
    (body req) Mongo.empty
  = (Mongo.empty,
     Normal (loginFailed "Username and password must be strings"))
  /\ postLogin (fun _ _ => true) (fun _ _ _ => "signed") (VStr "secret")
       false req Mongo.empty
     = (Mongo.empty,
        Normal [status 401;
                json (errorBody "Username and password must be strings")]).
Proof.
  intro req.
  apply (loginUser_non_string_rejected (fun _ _ => true)
           (fun _ _ _ => "signed") (VStr "secret") false req Mongo.empty).
  - reflexivity.
  - left. unfold Design.notString. simpl. discriminate.
Defined.

(** C8.  A login for a username with no record and a login for an
    existing username with a password that does not match fail alike:
    the same [{passed: false, message}] from [loginUser] and the same 401
    response from the route. *)
Theorem loginUser_failures_indistinguishable :
  forall (bcrypt_compare : string -> string -> bool)
         (jwt_sign : value -> value -> string -> string)
         (JWT_SECRET : value) (isProd : bool)
         (u1 p1 u2 p2 : string) (d1 d2 : Mongo.db) (found : Mongo.user)
         (req1 req2 : request),
    body req1 = credentials (VStr u1) (VStr p1) ->
    body req2 = credentials (VStr u2) (VStr p2) ->
    Mongo.findOne (trim u1) d1 = None ->
    Mongo.findOne (trim u2) d2 = Some found ->
    bcrypt_compare p2 (Mongo.password found) = false ->
    snd (loginUser bcrypt_compare jwt_sign JWT_SECRET (body req1) d1)
    = snd (loginUser bcrypt_compare jwt_sign JWT_SECRET (body req2) d2)
    /\ snd (loginUser bcrypt_compare jwt_sign JWT_SECRET (body req1) d1)
       = Normal (loginFailed "Invalid username or password")
    /\ snd (postLogin bcrypt_compare jwt_sign JWT_SECRET isProd req1 d1)
       = snd (postLogin bcrypt_compare jwt_sign JWT_SECRET isProd req2 d2)
    /\ snd (postLogin bcrypt_compare jwt_sign JWT_SECRET isProd req1 d1)
       = Normal [status 401;
                 json (errorBody "Invalid username or password")].
Proof.
  intros compare sign secret isProd u1 p1 u2 p2 d1 d2 found req1 req2
         HB1 HB2 H1 H2 HC.
  assert (L1 : loginUser compare sign secret (body req1) d1
               = (d1, Normal (loginFailed "Invalid username or password"))).
  { rewrite HB1. unfold loginUser, credentials, query, bind, ret.
    cbn [nullish prop assoc String.eqb Ascii.eqb Bool.eqb].
    rewrite H1. reflexivity. }
  assert (L2 : loginUser compare sign secret (body req2) d2
               = (d2, Normal (loginFailed "Invalid username or password"))).
  { rewrite HB2. unfold loginUser, credentials, query, bind, ret.
    cbn [nullish prop assoc String.eqb Ascii.eqb Bool.eqb].
    rewrite H2, HC. reflexivity. }
  unfold postLogin, bind. rewrite L1, L2. repeat split.
Qed.

Lemma loginUser_failures_indistinguishable_witness :
  let d :=
    Mongo.mkDb
      [Mongo.mkUser "000000000000000000000000" "alice" "$2b$15$hash"
         "alice@example.com" (VObj []) 0] 1 in
  let req1 := mkRequest VUndefined (credentials (VStr "bob") (VStr "secret1"))
                None in
  let req2 := mkRequest VUndefined (credentials (VStr "alice") (VStr "wrong!"))
                None in
  snd (postLogin (fun p h => (h =? "$2b$15$" ++ p)%string)
         (fun _ _ _ => "signed") (VStr "secret") false req1 d)
  = snd (postLogin (fun p h => (h =? "$2b$15$" ++ p)%string)
           (fun _ _ _ => "signed") (VStr "secret") false req2 d).
Proof.
  intros d req1 req2.
  apply (loginUser_failures_indistinguishable
           (fun p h => (h =? "$2b$15$" ++ p)%string)
           (fun _ _ _ => "signed") (VStr "secret") false
           "bob" "secret1" "alice" "wrong!" d d
           (Mongo.mkUser "000000000000000000000000" "alice" "$2b$15$hash"
              "alice@example.com" (VObj []) 0) req1 req2);
    reflexivity.
Defined.

(* ===================================================================== *)
(** ** Guards *)
(* ===================================================================== *)

(** A valid token lets a require-guard through with the decoded identity
    attached and nothing sent. *)
Lemma require_guards_valid_token :
  forall (jwt_verify : value -> value -> option value)
         (JWT_SECRET : value) (req : request) (decoded : value),
    truthy JWT_SECRET = true ->
    truthy (auth req) = true ->
    jwt_verify (auth req) JWT_SECRET = Some decoded ->
    requireAuth jwt_verify JWT_SECRET req
    = mkGuarded [] (Some (attach req decoded))
    /\ requireAuthPage jwt_verify JWT_SECRET req
       = mkGuarded [] (Some (attach req decoded)).
Proof.
  intros verify secret req decoded HS HT HV.
  unfold requireAuth, requireAuthPage. rewrite HS, HT, HV. split; reflexivity.
Qed.

(** The claim of C5 fails as stated: without a secret the page guard
    answers with a redirect to the login page, not with a server error. *)
Lemma requireAuthPage_without_secret_redirects :
  requireAuthPage (fun _ _ => None) VUndefined
    (mkRequest (VStr "token") VUndefined None)
  = mkGuarded [redirect "/login"] None
  /\ statusOf (sent (requireAuthPage (fun _ _ => None) VUndefined
                       (mkRequest (VStr "token") VUndefined None)))
     <> 500.
Proof.
  split; [reflexivity | discriminate].
Qed.

(** C5, amended.  With no signing secret configured both require-guards
    fail closed whatever the cookie holds: [requireAuth] answers 500
    "Server misconfigured", [requireAuthPage] redirects to [/login];
    neither calls [next()] and neither touches the cookie. *)
Theorem require_guards_without_secret :
  forall (jwt_verify : value -> value -> option value)
         (JWT_SECRET : value) (req : request),
    truthy JWT_SECRET = false ->
    requireAuth jwt_verify JWT_SECRET req
    = mkGuarded [status 500; json (errorBody "Server misconfigured")] None
    /\ requireAuthPage jwt_verify JWT_SECRET req
       = mkGuarded [redirect "/login"] None.
Proof.
  intros verify secret req HS. unfold requireAuth, requireAuthPage.
  rewrite HS. cbn [negb]. rewrite orb_true_r. split; reflexivity.
Qed.

Lemma require_guards_without_secret_witness :
  requireAuth (fun _ _ => Some (VObj [])) VUndefined
    (mkRequest (VStr "token") VUndefined None)
  = mkGuarded [status 500; json (errorBody "Server misconfigured")] None
  /\ requireAuthPage (fun _ _ => Some (VObj [])) VUndefined
       (mkRequest (VStr "token") VUndefined None)
     = mkGuarded [redirect "/login"] None.
Proof.
  apply (require_guards_without_secret (fun _ _ => Some (VObj []))
           VUndefined (mkRequest (VStr "token") VUndefined None)).
  reflexivity.
Defined.

(** C7.  With a secret configured, a request whose token cookie fails
    verification has the [auth] cookie cleared first by each of the four
    guards, which then takes its own branch: [requireAuth] rejects with
    401, [requireAuthPage] redirects to [/login], [reverseAuthPage] and
    [reverseAuth] proceed with the request unchanged. *)
Theorem guards_clear_cookie_on_invalid_token :
  forall (jwt_verify : value -> value -> option value)
         (JWT_SECRET : value) (req : request),
    truthy JWT_SECRET = true ->
    truthy (auth req) = true ->
    jwt_verify (auth req) JWT_SECRET = None ->
    requireAuth jwt_verify JWT_SECRET req
    = mkGuarded [clearCookie "auth"; status 401;
                 json (errorBody "Unauthorized")] None
    /\ requireAuthPage jwt_verify JWT_SECRET req
       = mkGuarded [clearCookie "auth"; redirect "/login"] None
    /\ reverseAuthPage jwt_verify JWT_SECRET req
       = mkGuarded [clearCookie "auth"] (Some req)
    /\ reverseAuth jwt_verify JWT_SECRET req
       = mkGuarded [clearCookie "auth"] (Some req).
Proof.
  intros verify secret req HS HT HV.
  unfold requireAuth, requireAuthPage, reverseAuthPage, reverseAuth.
  rewrite HS, HT, HV. repeat split.
Qed.

Lemma guards_clear_cookie_on_invalid_token_witness :
  let req := mkRequest (VStr "tampered.token.value") VUndefined None in
  requireAuth (fun _ _ => None) (VStr "secret") req
  = mkGuarded [clearCookie "auth"; status 401;
               json (errorBody "Unauthorized")] None
  /\ requireAuthPage (fun _ _ => None) (VStr "secret") req
     = mkGuarded [clearCookie "auth"; redirect "/login"] None
  /\ reverseAuthPage (fun _ _ => None) (VStr "secret") req
     = mkGuarded [clearCookie "auth"] (Some req)
  /\ reverseAuth (fun _ _ => None) (VStr "secret") req
     = mkGuarded [clearCookie "auth"] (Some req).
Proof.
  intro req.
  apply (guards_clear_cookie_on_invalid_token (fun _ _ => None)
           (VStr "secret") req); reflexivity.
Defined.

(** Behind [requireAuth], a request with a valid token reaches the
    handler with the decoded identity attached, and the response is the
    handler's. *)
Lemma route_requireAuth_valid_token :
  forall (jwt_verify : value -> value -> option value)
         (JWT_SECRET : value) (handler : request -> M (list effect))
         (req : request) (decoded : value) (d : Mongo.db),
    truthy JWT_SECRET = true ->
    truthy (auth req) = true ->
    jwt_verify (auth req) JWT_SECRET = Some decoded ->
    route (requireAuth jwt_verify JWT_SECRET) handler req d
    = handler (attach req decoded) d.
Proof.
  intros verify secret handler req decoded d HS HT HV.
  unfold route.
  destruct (require_guards_valid_token verify secret req decoded HS HT HV)
    as [-> _].
  cbn [next sent]. unfold bind, ret.
  destruct (handler (attach req decoded) d) as [d' [es | e]]; reflexivity.
Qed.

(** With an invalid token the handler is not run and the store is not
    touched. *)
Lemma route_requireAuth_invalid_token :
  forall (jwt_verify : value -> value -> option value)
         (JWT_SECRET : value) (handler : request -> M (list effect))
         (req : request) (d : Mongo.db),
    truthy JWT_SECRET = true ->
    truthy (auth req) = true ->
    jwt_verify (auth req) JWT_SECRET = None ->
    route (requireAuth jwt_verify JWT_SECRET) handler req d
    = (d, Normal [clearCookie "auth"; status 401;
                  json (errorBody "Unauthorized")]).
Proof.
  intros verify secret handler req d HS HT HV. unfold route, requireAuth.
  rewrite HS, HT, HV. reflexivity.
Qed.

(** The hypotheses of [login_after_registration_agreeing] can be met. *)
Lemma login_after_registration_agreeing_witness :
  let hash := fun (p : string) (_ : nat) => ("$2b$15$" ++ p)%string in
  let compare := fun (p h : string) => (h =? "$2b$15$" ++ p)%string in
  let sign := fun (_ _ : value) (_ : string) => "signed" in
  let d' := fst (createUser hash 0
                   (signup (VStr "alice") (VStr "secret1")
                      (VStr "alice@example.com")) Mongo.empty) in
  loginUser compare sign (VStr "secret")
    (credentials (VStr "alice") (VStr "secret1")) d'
  = (d', Normal (loginPassed "signed" (VObj []))).
Proof.
  intros hash compare sign d'.
  apply (login_after_registration_agreeing hash compare sign
           (fun _ _ => Some (VObj [("userId", VStr "000000000000000000000000");
                                   ("username", VStr "alice")]))
           (VStr "secret") 0 "alice" "secret1" "alice@example.com"
           Mongo.empty
           (VObj [("userId", VStr "000000000000000000000000");
                  ("username", VStr "alice")]));
    reflexivity.
Defined.

(* ===================================================================== *)
(** ** The guards as a whole *)
(* ===================================================================== *)

(** X1.  A require-guard hands a request on only when [jwt.verify]
    accepted its cookie under a configured secret, and what it hands on
    is the request with the decoded identity attached. *)
Theorem require_guards_pass_only_verified :
  forall (jwt_verify : value -> value -> option value)
         (JWT_SECRET : value) (req r : request),
    next (requireAuth jwt_verify JWT_SECRET req) = Some r
    \/ next (requireAuthPage jwt_verify JWT_SECRET req) = Some r ->
    exists decoded,
      Notions.verifiedAs jwt_verify JWT_SECRET req decoded
      /\ r = attach req decoded.
Proof.
  intros verify secret req r. unfold requireAuth, requireAuthPage,
    Notions.verifiedAs.
  destruct (truthy secret), (truthy (auth req)),
    (verify (auth req) secret) as [decoded |]; simpl;
    intros [H | H]; try discriminate H;
    injection H as <-; exists decoded; auto.
Qed.

Lemma require_guards_pass_only_verified_witness :
  exists decoded,
    Notions.verifiedAs (fun _ _ => Some (VObj [("userId", VStr "7")]))
      (VStr "secret") (mkRequest (VStr "token") VNull None) decoded
    /\ mkRequest (VStr "token") VNull
         (Some (mkIdentity (VStr "7") VUndefined))
       = attach (mkRequest (VStr "token") VNull None) decoded.
Proof.
  apply (require_guards_pass_only_verified
           (fun _ _ => Some (VObj [("userId", VStr "7")])) (VStr "secret")
           (mkRequest (VStr "token") VNull None)).
  left. reflexivity.
Defined.

(** X2.  A reverse guard hands a request on exactly when its cookie is
    not verified (no secret, no cookie, or [jwt.verify] throws), and it
    hands it on unchanged. *)
Theorem reverse_guards_pass_iff_not_verified :
  forall (jwt_verify : value -> value -> option value)
         (JWT_SECRET : value) (req r : request),
    (next (reverseAuth jwt_verify JWT_SECRET req) = Some r
     <-> r = req
         /\ ~ exists decoded,
              Notions.verifiedAs jwt_verify JWT_SECRET req decoded)
    /\ (next (reverseAuthPage jwt_verify JWT_SECRET req) = Some r
        <-> r = req
            /\ ~ exists decoded,
                 Notions.verifiedAs jwt_verify JWT_SECRET req decoded).
Proof.
  intros verify secret req r. unfold reverseAuth, reverseAuthPage,
    Notions.verifiedAs.
  destruct (truthy secret), (truthy (auth req)),
    (verify (auth req) secret) as [decoded |]; simpl;
    (split;
     (split;
      [ intro H; try discriminate H; injection H as <-;
        (split; [reflexivity |]);
        intros (x & H1 & H2 & H3); discriminate
      | intros [-> H]; try reflexivity;
        exfalso; apply H; exists decoded; auto ])).
Qed.

(** X3.  A guard clears the [auth] cookie in one case only: it ran
    [jwt.verify] on the cookie and verification failed.  With no secret,
    no cookie or a valid token, no guard clears anything. *)
Theorem guards_clear_cookie_iff_verification_fails :
  forall (jwt_verify : value -> value -> option value)
         (JWT_SECRET : value) (req : request) (g : guarded),
    In g [requireAuth jwt_verify JWT_SECRET req;
          requireAuthPage jwt_verify JWT_SECRET req;
          reverseAuthPage jwt_verify JWT_SECRET req;
          reverseAuth jwt_verify JWT_SECRET req] ->
    (In (clearCookie "auth") (sent g)
     <-> Notions.verificationFails jwt_verify JWT_SECRET req).
Proof.
  intros verify secret req g. unfold requireAuth, requireAuthPage,
    reverseAuthPage, reverseAuth, Notions.verificationFails.
  destruct (truthy secret), (truthy (auth req)),
    (verify (auth req) secret) as [decoded |]; simpl;
    intros [<- | [<- | [<- | [<- | []]]]]; simpl;
    (split;
     [ intro H; repeat (destruct H as [H | H]; try discriminate H);
       try contradiction; auto
     | intros (H1 & H2 & H3); try discriminate; auto ]).
Qed.

Lemma guards_clear_cookie_iff_verification_fails_witness :
  In (clearCookie "auth")
     (sent (reverseAuth (fun _ _ => None) (VStr "secret")
              (mkRequest (VStr "stale") VNull None)))
  <-> Notions.verificationFails (fun _ _ => None) (VStr "secret")
        (mkRequest (VStr "stale") VNull None).
Proof.
  apply (guards_clear_cookie_iff_verification_fails (fun _ _ => None)
           (VStr "secret") (mkRequest (VStr "stale") VNull None)).
  simpl. auto.
Defined.

(* ===================================================================== *)
(** ** More on the string primitives *)
(* ===================================================================== *)

Module TrimFacts.

Lemma trimEnd_idempotent (s : string) : trimEnd (trimEnd s) = trimEnd s.
Proof.
  induction s as [| c s IH]; simpl; [reflexivity |].
  destruct (trimEnd s) as [| a t] eqn:E.
  - destruct (isWhiteSpace c) eqn:Ec; simpl; [reflexivity |].
    rewrite Ec. reflexivity.
  - change (trimEnd (String c (String a t))) with
      (match trimEnd (String a t) with
       | EmptyString =>
           if isWhiteSpace c then EmptyString else String c EmptyString
       | String a' t' => String c (String a' t')
       end).
    rewrite IH. reflexivity.
Qed.

(** A string that does not start with whitespace. *)
Lemma trimStart_fixed (s : string) :
  match s with
  | EmptyString => True
  | String c _ => isWhiteSpace c = false
  end ->
  trimStart s = s.
Proof.
  destruct s as [| c s]; simpl; [reflexivity |]. intros ->. reflexivity.
Qed.

Lemma trimStart_head (s : string) :
  match trimStart s with
  | EmptyString => True
  | String c _ => isWhiteSpace c = false
  end.
Proof.
  induction s as [| c s IH]; simpl; [exact I |].
  destruct (isWhiteSpace c) eqn:Ec; [exact IH | exact Ec].
Qed.

Lemma trimEnd_head (s : string) :
  match s with
  | EmptyString => True
  | String c _ => isWhiteSpace c = false
  end ->
  match trimEnd s with
  | EmptyString => True
  | String c _ => isWhiteSpace c = false
  end.
Proof.
  destruct s as [| c s]; simpl; [auto |]. intro Ec.
  destruct (trimEnd s); [rewrite Ec |]; exact Ec.
Qed.

(** [s.trim().trim()] is [s.trim()]. *)
Lemma trim_idempotent (s : string) : trim (trim s) = trim s.
Proof.
  unfold trim.
  rewrite (trimStart_fixed (trimEnd (trimStart s))).
  - apply trimEnd_idempotent.
  - apply trimEnd_head, trimStart_head.
Qed.

Lemma lowerChar_idempotent (c : ascii) : lowerChar (lowerChar c) = lowerChar c.
Proof.
  destruct c as [[] [] [] [] [] [] [] []]; reflexivity.
Qed.

(** [s.toLowerCase().toLowerCase()] is [s.toLowerCase()]. *)
Lemma toLowerCase_idempotent (s : string) :
  toLowerCase (toLowerCase s) = toLowerCase s.
Proof.
  induction s as [| c s IH]; simpl; [reflexivity |].
  rewrite lowerChar_idempotent, IH. reflexivity.
Qed.

Lemma toLowerCase_length (s : string) :
  String.length (toLowerCase s) = String.length s.
Proof.
  induction s as [| c s IH]; simpl; [reflexivity |]. rewrite IH. reflexivity.
Qed.

End TrimFacts.

(* ===================================================================== *)
(** ** Login *)
(* ===================================================================== *)

(** X4.  Logging in only reads: whatever the request and whatever the
    outcome (passed, failed or thrown), [loginUser] and the login route
    leave the store as it was. *)
Theorem login_leaves_store :
  forall (bcrypt_compare : string -> string -> bool)
         (jwt_sign : value -> value -> string -> string)
         (JWT_SECRET : value) (isProd : bool)
         (req : request) (d : Mongo.db),
    fst (loginUser bcrypt_compare jwt_sign JWT_SECRET (body req) d) = d
    /\ fst (postLogin bcrypt_compare jwt_sign JWT_SECRET isProd req d) = d.
Proof.
  intros compare sign secret isProd req d.
  assert (HL : fst (loginUser compare sign secret (body req) d) = d).
  { unfold loginUser.
    destruct (nullish (body req)); [reflexivity |].
    destruct (prop (body req) "username"); try reflexivity.
    destruct (prop (body req) "password"); try reflexivity.
    unfold bind, query, lift, ret, signAuthToken.
    destruct (Mongo.findOne (trim s) d) as [u |]; [| reflexivity].
    destruct (compare s0 (Mongo.password u)); [| reflexivity].
    destruct (truthy secret); reflexivity. }
  split; [exact HL |].
  unfold postLogin, bind.
  destruct (loginUser compare sign secret (body req) d) as [d' [[m | c p] | e]];
    simpl in *; exact HL.
Qed.

(** X5.  A login with the password of the record found under the trimmed
    username passes: the token is signed, for one day, over that record's
    identity and stored username, the record's preferences come back, and
    the route sets the token as the [auth] cookie (HTTP-only, [lax],
    24 hours) and echoes the username as it was submitted. *)
Theorem login_with_matching_password :
  forall (bcrypt_compare : string -> string -> bool)
         (jwt_sign : value -> value -> string -> string)
         (JWT_SECRET : value) (isProd : bool)
         (req : request) (u p : string) (d : Mongo.db) (found : Mongo.user),
    body req = credentials (VStr u) (VStr p) ->
    Mongo.findOne (trim u) d = Some found ->
    bcrypt_compare p (Mongo.password found) = true ->
    truthy JWT_SECRET = true ->
    let token :=
      jwt_sign (VObj [("userId", VStr (Mongo._id found));
                      ("username", VStr (Mongo.username found))])
        JWT_SECRET "1d" in
    loginUser bcrypt_compare jwt_sign JWT_SECRET (body req) d
    = (d, Normal (loginPassed token (Mongo.preferences found)))
    /\ postLogin bcrypt_compare jwt_sign JWT_SECRET isProd req d
       = (d, Normal [cookie "auth" token
                       (mkCookieOptions true isProd "lax" 86400000);
                     json (VObj [("username", VStr u);
                                 ("preferences", Mongo.preferences found)])]).
Proof.
  intros compare sign secret isProd req u p d found HB HF HC HS token.
  assert (HL : loginUser compare sign secret (body req) d
               = (d, Normal (loginPassed token (Mongo.preferences found)))).
  { rewrite HB. unfold loginUser, credentials, query, bind, lift, ret,
      signAuthToken.
    cbn [nullish prop assoc String.eqb Ascii.eqb Bool.eqb].
    rewrite HF, HC, HS. reflexivity. }
  split; [exact HL |].
  unfold postLogin, bind. rewrite HL, HB. reflexivity.
Qed.

Lemma login_with_matching_password_witness :
  let alice :=
    Mongo.mkUser "000000000000000000000000" "alice" "$2b$15$secret1"
      "alice@example.com" (VObj [("team", VStr "NE")]) 0 in
  let req := mkRequest VUndefined
               (credentials (VStr " alice ") (VStr "secret1")) None in
  postLogin (fun p h => (h =? "$2b$15$" ++ p)%string)
    (fun _ _ _ => "signed") (VStr "secret") true req (Mongo.mkDb [alice] 1)
  = (Mongo.mkDb [alice] 1,
     Normal [cookie "auth" "signed"
               (mkCookieOptions true true "lax" 86400000);
             json (VObj [("username", VStr " alice ");
                         ("preferences", VObj [("team", VStr "NE")])])]).
Proof.
  intros alice req.
  apply (login_with_matching_password
           (fun p h => (h =? "$2b$15$" ++ p)%string)
           (fun _ _ _ => "signed") (VStr "secret") true req
           " alice " "secret1" (Mongo.mkDb [alice] 1) alice);
    reflexivity.
Defined.

(** X6.  With no signing secret a login with the right password does not
    fail softly: [loginUser] throws "Err creating auth token", the login
    route (which has no [try]) passes the throw on without answering, and
    the store is untouched.  A wrong password is still turned down with
    the generic message, for the secret is read only after the password
    matched. *)
Theorem login_without_secret_throws :
  forall (bcrypt_compare : string -> string -> bool)
         (jwt_sign : value -> value -> string -> string)
         (JWT_SECRET : value) (isProd : bool)
         (req : request) (u p : string) (d : Mongo.db) (found : Mongo.user),
    body req = credentials (VStr u) (VStr p) ->
    Mongo.findOne (trim u) d = Some found ->
    truthy JWT_SECRET = false ->
    postLogin bcrypt_compare jwt_sign JWT_SECRET isProd req d
    = if bcrypt_compare p (Mongo.password found)
      then (d, Throw (Error "Err creating auth token"))
      else (d, Normal [status 401;
                       json (errorBody "Invalid username or password")]).
Proof.
  intros compare sign secret isProd req u p d found HB HF HS.
  unfold postLogin, bind. rewrite HB.
  unfold loginUser, credentials, query, bind, lift, ret, signAuthToken.
  cbn [nullish prop assoc String.eqb Ascii.eqb Bool.eqb].
  rewrite HF, HS. destruct (compare p (Mongo.password found)); reflexivity.
Qed.

Lemma login_without_secret_throws_witness :
  let alice :=
    Mongo.mkUser "000000000000000000000000" "alice" "$2b$15$secret1"
      "alice@example.com" (VObj []) 0 in
  let req := mkRequest VUndefined
               (credentials (VStr "alice") (VStr "secret1")) None in
  postLogin (fun p h => (h =? "$2b$15$" ++ p)%string)
    (fun _ _ _ => "signed") VUndefined false req (Mongo.mkDb [alice] 1)
  = (Mongo.mkDb [alice] 1, Throw (Error "Err creating auth token")).
Proof.
  intros alice req.
  apply (login_without_secret_throws
           (fun p h => (h =? "$2b$15$" ++ p)%string)
           (fun _ _ _ => "signed") VUndefined false req
           "alice" "secret1" (Mongo.mkDb [alice] 1) alice);
    reflexivity.
Defined.

(** X7.  Whitespace around the submitted username does not matter to
    [loginUser]: the outcome for [u] is the outcome for [u.trim()]. *)
Theorem login_ignores_surrounding_whitespace :
  forall (bcrypt_compare : string -> string -> bool)
         (jwt_sign : value -> value -> string -> string)
         (JWT_SECRET : value) (u : string) (password : value)
         (d : Mongo.db),
    loginUser bcrypt_compare jwt_sign JWT_SECRET
      (credentials (VStr u) password) d
    = loginUser bcrypt_compare jwt_sign JWT_SECRET
        (credentials (VStr (trim u)) password) d.
Proof.
  intros compare sign secret u password d.
  unfold loginUser, credentials.
  cbn [nullish prop assoc String.eqb Ascii.eqb Bool.eqb].
  rewrite TrimFacts.trim_idempotent. reflexivity.
Qed.

(* ===================================================================== *)
(** ** Registration: what is stored, and when *)
(* ===================================================================== *)

Module RegisterFacts.

(** [createUser] either leaves the store alone or appends one record
    whose username and e-mail are lower-cased. *)
Lemma createUser_store_cases
    (hash : string -> nat -> string) (now : N) (arg : value) (d : Mongo.db) :
  fst (createUser hash now arg d) = d
  \/ exists u pw e prefs,
       fst (createUser hash now arg d)
       = Mongo.mkDb
           (Mongo.users d ++
            [Mongo.mkUser (Mongo.freshId d) (toLowerCase u) pw
               (toLowerCase e) prefs now])
           (Mongo.counter d + 1).
Proof.
  unfold createUser.
  destruct (nullish arg); [left; reflexivity |].
  destruct (validate _ _ _ _); [left; reflexivity |].
  destruct (prop arg "username") as [| | | | u | |]; try (left; reflexivity).
  destruct (prop arg "password") as [| | | | p | |]; try (left; reflexivity).
  destruct (prop arg "email") as [| | | | e | |]; try (left; reflexivity).
  unfold bind, tryCatch, ret, encryptPassword, Mongo.insertOne.
  destruct (Mongo.collides (toLowerCase u) (toLowerCase e) d).
  - left. reflexivity.
  - right. eexists u, _, e, _. reflexivity.
Qed.

(** The registration route ends where [createUser] ends: its throw is
    caught and answered with 400 and its message. *)
Lemma postUser_answers_createUser
    (hash : string -> nat -> string) (compare : string -> string -> bool)
    (sign : value -> value -> string -> string) (secret : value)
    (isProd : bool) (now : N) (req : request) (d : Mongo.db) :
  exists e,
    createUser hash now (body req) d
    = (fst (createUser hash now (body req) d), Throw e)
    /\ postUser hash compare sign secret isProd now req d
       = (fst (createUser hash now (body req) d),
          Normal [status 400; json (errorBody (message e))]).
Proof.
  destruct (createUser hash now (body req) d) as [d' [v | e]] eqn:E.
  - exfalso. exact (createUser_never_returns hash now (body req) d d' v E).
  - exists e. split; [reflexivity |].
    unfold postUser, tryCatch, bind. rewrite E. reflexivity.
Qed.

Lemma collides_after_insert (uname mail uname' mail' pw : string)
    (prefs : value) (now : N) (d : Mongo.db) :
  uname' = uname \/ mail' = mail ->
  Mongo.collides uname' mail'
    (Mongo.mkDb
       (Mongo.users d ++
        [Mongo.mkUser (Mongo.freshId d) uname pw mail prefs now])
       (Mongo.counter d + 1)) = true.
Proof.
  intro H. unfold Mongo.collides. simpl. rewrite existsb_app. simpl.
  apply orb_true_iff. right. rewrite orb_false_r.
  apply orb_true_iff.
  destruct H as [-> | ->]; [left | right]; apply String.eqb_refl.
Qed.

End RegisterFacts.

(** X8.  A valid registration that collides with no record appends
    exactly one record and touches no other: username and e-mail in lower
    case, the password as [bcrypt.hash] with cost 15 gives it, the
    preferences as submitted ([{}] when left out), under a fresh
    identity. *)
Theorem createUser_stores :
  forall (bcrypt_hash : string -> nat -> string) (Date_now : N)
         (arg : value) (u p e : string) (d : Mongo.db),
    prop arg "username" = VStr u ->
    prop arg "password" = VStr p ->
    prop arg "email" = VStr e ->
    validate (VStr u) (VStr p) (VStr e) VUndefined = None ->
    Mongo.collides (toLowerCase u) (toLowerCase e) d = false ->
    fst (createUser bcrypt_hash Date_now arg d)
    = Mongo.mkDb
        (Mongo.users d ++
         [Mongo.mkUser (Mongo.freshId d) (toLowerCase u) (bcrypt_hash p 15)
            (toLowerCase e)
            (if (typeof (prop arg "preferences") =? "undefined")%string
             then VObj [] else prop arg "preferences")
            Date_now])
        (Mongo.counter d + 1).
Proof.
  intros hash now arg u p e d HU HP HE HV HC. unfold createUser.
  assert (HN : nullish arg = false).
  { destruct arg; try reflexivity; discriminate HU. }
  rewrite HN, HU, HP, HE.
  change (validate (VStr u) (VStr p) (VStr e) _)
    with (validate (VStr u) (VStr p) (VStr e) VUndefined).
  rewrite HV.
  unfold bind, tryCatch, ret, encryptPassword, Mongo.insertOne.
  rewrite HC. cbn [fst].
  destruct (prop arg "preferences"); reflexivity.
Qed.

Lemma createUser_stores_witness :
  fst (createUser (fun p _ => ("$2b$15$" ++ p)%string) 7
         (VObj [("username", VStr "Alice"); ("password", VStr "secret1");
                ("email", VStr "Alice@Example.com");
                ("preferences", VObj [("team", VStr "NE")])])
         Mongo.empty)
  = Mongo.mkDb
      [Mongo.mkUser "000000000000000000000000" "alice" "$2b$15$secret1"
         "alice@example.com" (VObj [("team", VStr "NE")]) 7] 1.
Proof.
  apply (createUser_stores (fun p _ => ("$2b$15$" ++ p)%string) 7
           (VObj [("username", VStr "Alice"); ("password", VStr "secret1");
                  ("email", VStr "Alice@Example.com");
                  ("preferences", VObj [("team", VStr "NE")])])
           "Alice" "secret1" "Alice@Example.com" Mongo.empty);
    reflexivity.
Defined.

(** X9.  Registering a second account whose username, or whose e-mail,
    equals that of an earlier registration up to letter case is refused:
    [createUser] throws "Username or email already exists." whichever of
    the two collided, and stores nothing. *)
Theorem second_registration_conflicts :
  forall (bcrypt_hash : string -> nat -> string) (Date_now : N)
         (u p e u' p' e' : string) (d : Mongo.db),
    validate (VStr u) (VStr p) (VStr e) (VObj []) = None ->
    validate (VStr u') (VStr p') (VStr e') (VObj []) = None ->
    Mongo.collides (toLowerCase u) (toLowerCase e) d = false ->
    toLowerCase u' = toLowerCase u \/ toLowerCase e' = toLowerCase e ->
    let d1 := fst (createUser bcrypt_hash Date_now
                     (signup (VStr u) (VStr p) (VStr e)) d) in
    createUser bcrypt_hash Date_now (signup (VStr u') (VStr p') (VStr e')) d1
    = (d1, Throw (Error "Username or email already exists.")).
Proof.
  intros hash now u p e u' p' e' d HV HV' HC HS d1. subst d1.
  rewrite (createUser_inserts hash now u p e d HV HC). cbn [fst].
  unfold createUser, signup.
  cbn [nullish prop assoc String.eqb Ascii.eqb Bool.eqb].
  rewrite HV'.
  unfold bind, tryCatch, ret, encryptPassword, Mongo.insertOne.
  rewrite (RegisterFacts.collides_after_insert _ _ _ _ _ _ _ _ HS).
  reflexivity.
Qed.

Lemma second_registration_conflicts_witness :
  let hash := fun (p : string) (_ : nat) => ("$2b$15$" ++ p)%string in
  let d1 := fst (createUser hash 0
                   (signup (VStr "alice") (VStr "secret1")
                      (VStr "alice@example.com")) Mongo.empty) in
  createUser hash 0
    (signup (VStr "ALICE") (VStr "another1") (VStr "other@example.com")) d1
  = (d1, Throw (Error "Username or email already exists.")).
Proof.
  intros hash d1.
  apply (second_registration_conflicts hash 0 "alice" "secret1"
           "alice@example.com" "ALICE" "another1" "other@example.com"
           Mongo.empty); try reflexivity.
  left. reflexivity.
Defined.

(** X10.  Registration keeps the store in lower case: if every stored
    username and e-mail is lower-case before a [POST /api/user], every one
    is after it, whatever the request. *)
Theorem registration_keeps_lowercase :
  forall (bcrypt_hash : string -> nat -> string)
         (bcrypt_compare : string -> string -> bool)
         (jwt_sign : value -> value -> string -> string)
         (JWT_SECRET : value) (isProd : bool) (Date_now : N)
         (req : request) (d : Mongo.db),
    Notions.lowercased d ->
    Notions.lowercased
      (fst (postUser bcrypt_hash bcrypt_compare jwt_sign JWT_SECRET isProd
              Date_now req d)).
Proof.
  intros hash compare sign secret isProd now req d HL.
  destruct (RegisterFacts.postUser_answers_createUser hash compare sign
              secret isProd now req d) as (e & _ & ->).
  cbn [fst].
  destruct (RegisterFacts.createUser_store_cases hash now (body req) d)
    as [-> | (u & pw & m & prefs & ->)]; [exact HL |].
  unfold Notions.lowercased in *. cbn [Mongo.users].
  apply Forall_app. split; [exact HL |].
  constructor; [| constructor]. cbn [Mongo.username Mongo.email].
  split; apply TrimFacts.toLowerCase_idempotent.
Qed.

Lemma registration_keeps_lowercase_witness :
  Notions.lowercased
    (fst (postUser (fun p _ => ("$2b$15$" ++ p)%string) (fun _ _ => true)
            (fun _ _ _ => "signed") (VStr "secret") false 0
            (mkRequest VUndefined
               (signup (VStr "Bob") (VStr "secret1") (VStr "Bob@B.org"))
               None)
            (Mongo.mkDb
               [Mongo.mkUser "000000000000000000000000" "alice" "h"
                  "alice@example.com" (VObj []) 0] 1))).
Proof.
  apply (registration_keeps_lowercase (fun p _ => ("$2b$15$" ++ p)%string)
           (fun _ _ => true) (fun _ _ _ => "signed") (VStr "secret") false 0).
  constructor; [split; reflexivity | constructor].
Defined.

(** X11.  The registration route never answers 201 and never sets a
    cookie: for every request and every store its response is a 400 with
    an error message, because [createUser] never returns. *)
Theorem postUser_always_400 :
  forall (bcrypt_hash : string -> nat -> string)
         (bcrypt_compare : string -> string -> bool)
         (jwt_sign : value -> value -> string -> string)
         (JWT_SECRET : value) (isProd : bool) (Date_now : N)
         (req : request) (d : Mongo.db),
    exists msg,
      snd (postUser bcrypt_hash bcrypt_compare jwt_sign JWT_SECRET isProd
             Date_now req d)
      = Normal [status 400; json (errorBody msg)].
Proof.
  intros hash compare sign secret isProd now req d.
  destruct (RegisterFacts.postUser_answers_createUser hash compare sign
              secret isProd now req d) as (e & _ & ->).
  exists (message e). reflexivity.
Qed.

(* ===================================================================== *)
(** ** Behind [requireAuth]: preferences, profile, current user *)
(* ===================================================================== *)

Module UpdateFacts.

Lemma setField_columns (u : Mongo.user) (kv : string * value) :
  Notions.credentialColumns (Mongo.setField u kv)
  = Notions.credentialColumns u.
Proof.
  destruct kv as [k v]. unfold Mongo.setField.
  destruct (k =? "username")%string.
  - destruct v; reflexivity.
  - destruct (k =? "preferences")%string; reflexivity.
Qed.

Lemma applySet_columns (update : list (string * value)) :
  forall u, Notions.credentialColumns (Mongo.applySet u update)
            = Notions.credentialColumns u.
Proof.
  unfold Mongo.applySet.
  induction update as [| kv update IH]; intro u; simpl; [reflexivity |].
  rewrite IH. apply setField_columns.
Qed.

Lemma replaceFirst_map (A : Type) (g : Mongo.user -> A)
    (i : Mongo.ObjectId) (f : Mongo.user -> Mongo.user) (l : list Mongo.user) :
  (forall u, g (f u) = g u) ->
  map g (Mongo.replaceFirst i f l) = map g l.
Proof.
  intro H. induction l as [| a l IH]; simpl; [reflexivity |].
  destruct (Mongo._id a =? i)%string; simpl; [rewrite H | rewrite IH];
    reflexivity.
Qed.

(** Looking a username up after [replaceFirst], when identities are
    distinct and [f] keeps usernames. *)
Lemma find_replaceFirst (p : Mongo.user -> bool) (i : Mongo.ObjectId)
    (f : Mongo.user -> Mongo.user) (l : list Mongo.user) :
  NoDup (map Mongo._id l) ->
  (forall u, p (f u) = p u) ->
  find p (Mongo.replaceFirst i f l)
  = option_map (fun v => if (Mongo._id v =? i)%string then f v else v)
      (find p l).
Proof.
  intros HN Hp. induction l as [| a l IH]; simpl; [reflexivity |].
  inversion HN as [| ? ? Hnotin HN']; subst.
  destruct (Mongo._id a =? i)%string eqn:Ea; simpl.
  - rewrite Hp. destruct (p a); simpl; [rewrite Ea; reflexivity |].
    destruct (find p l) as [v |] eqn:Ef; simpl; [| reflexivity].
    destruct (Mongo._id v =? i)%string eqn:Ev; [| reflexivity].
    exfalso. apply Hnotin.
    apply String.eqb_eq in Ea, Ev. rewrite Ea, <- Ev.
    apply in_map. apply find_some in Ef. apply Ef.
  - destruct (p a); simpl; [rewrite Ea; reflexivity |].
    apply IH. exact HN'.
Qed.

(** Where [POST /api/preferences] leaves the store. *)
Lemma postPreferences_store (req : request) (d : Mongo.db) :
  fst (postPreferences req d) = d
  \/ exists oid p,
       fst (postPreferences req d)
       = Mongo.mkDb
           (Mongo.replaceFirst oid
              (fun u => Mongo.applySet u [("preferences", p)])
              (Mongo.users d))
           (Mongo.counter d).
Proof.
  unfold postPreferences, tryCatch, bind, lift, member, ret.
  destruct (nullish (body req)); [left; reflexivity |].
  destruct (negb (typeof (prop (body req) "preferences") =? "object")%string);
    [left; reflexivity |].
  destruct (negb (truthy (userId req))); [left; reflexivity |].
  destruct (Mongo.newObjectId (userId req)) as [oid | e];
    [| left; reflexivity].
  unfold Mongo.updateOne. cbn [Mongo.renameCollides assoc String.eqb
    Ascii.eqb Bool.eqb].
  right. eexists oid, _. reflexivity.
Qed.

(** Where [POST /api/updateUsr] leaves the store. *)
Lemma postUpdateUsr_store (sign : value -> value -> string -> string)
    (secret : value) (isProd : bool) (req : request) (d : Mongo.db) :
  fst (postUpdateUsr sign secret isProd req d) = d
  \/ exists oid update,
       fst (postUpdateUsr sign secret isProd req d)
       = Mongo.mkDb
           (Mongo.replaceFirst oid (fun u => Mongo.applySet u update)
              (Mongo.users d))
           (Mongo.counter d).
Proof.
  unfold postUpdateUsr, tryCatch, bind, lift, ret.
  destruct (nullish (body req)); [left; reflexivity |].
  destruct (negb (truthy (userId req))); [left; reflexivity |].
  destruct (List.length _ =? 0)%nat; [left; reflexivity |].
  destruct (Mongo.newObjectId (userId req)) as [oid | e];
    [| left; reflexivity].
  unfold Mongo.updateOne.
  destruct (Mongo.renameCollides oid _ d); [left; reflexivity |].
  right. eexists oid, _. reflexivity.
Qed.

End UpdateFacts.

(** X12.  Behind [requireAuth] an unverified request reaches no handler:
    whatever the handler, the store is as before and the response is the
    guard's own, a 401 or (with no secret) a 500. *)
Theorem unverified_requests_reach_no_handler :
  forall (jwt_verify : value -> value -> option value)
         (JWT_SECRET : value) (handler : request -> M (list effect))
         (req : request) (d : Mongo.db),
    (~ exists decoded,
         Notions.verifiedAs jwt_verify JWT_SECRET req decoded) ->
    route (requireAuth jwt_verify JWT_SECRET) handler req d
    = (d, Normal (sent (requireAuth jwt_verify JWT_SECRET req)))
    /\ (statusOf (sent (requireAuth jwt_verify JWT_SECRET req)) = 401
        \/ statusOf (sent (requireAuth jwt_verify JWT_SECRET req)) = 500).
Proof.
  intros verify secret handler req d H.
  unfold route, requireAuth, Notions.verifiedAs in *.
  destruct (truthy secret), (truthy (auth req)),
    (verify (auth req) secret) as [decoded |]; simpl;
    try (split; [reflexivity | auto]).
  exfalso. apply H. exists decoded. auto.
Qed.

Lemma unverified_requests_reach_no_handler_witness :
  route (requireAuth (fun _ _ => None) (VStr "secret")) postPreferences
    (mkRequest (VStr "forged") (VObj [("preferences", VObj [])]) None)
    Mongo.empty
  = (Mongo.empty,
     Normal (sent (requireAuth (fun _ _ => None) (VStr "secret")
                     (mkRequest (VStr "forged")
                        (VObj [("preferences", VObj [])]) None))))
  /\ (statusOf (sent (requireAuth (fun _ _ => None) (VStr "secret")
                        (mkRequest (VStr "forged")
                           (VObj [("preferences", VObj [])]) None))) = 401
      \/ statusOf (sent (requireAuth (fun _ _ => None) (VStr "secret")
                           (mkRequest (VStr "forged")
                              (VObj [("preferences", VObj [])]) None)))
         = 500).
Proof.
  apply (unverified_requests_reach_no_handler (fun _ _ => None)
           (VStr "secret") postPreferences
           (mkRequest (VStr "forged") (VObj [("preferences", VObj [])]) None)
           Mongo.empty).
  intros (decoded & _ & _ & H). discriminate H.
Defined.

(** X13.  Neither update handler can touch what lets a user in: after any
    [POST /api/preferences] or [POST /api/updateUsr], the records are as
    many as before and each keeps its identity, password hash, e-mail and
    creation time; [POST /api/preferences] keeps every username too. *)
Theorem updates_keep_credentials :
  forall (jwt_sign : value -> value -> string -> string)
         (JWT_SECRET : value) (isProd : bool)
         (req : request) (d : Mongo.db),
    map Notions.credentialColumns
      (Mongo.users (fst (postPreferences req d)))
    = map Notions.credentialColumns (Mongo.users d)
    /\ map Mongo.username (Mongo.users (fst (postPreferences req d)))
       = map Mongo.username (Mongo.users d)
    /\ map Notions.credentialColumns
         (Mongo.users (fst (postUpdateUsr jwt_sign JWT_SECRET isProd req d)))
       = map Notions.credentialColumns (Mongo.users d).
Proof.
  intros sign secret isProd req d. repeat split.
  - destruct (UpdateFacts.postPreferences_store req d)
      as [-> | (oid & p & ->)]; [reflexivity |].
    cbn [Mongo.users]. apply UpdateFacts.replaceFirst_map.
    intro u. apply UpdateFacts.applySet_columns.
  - destruct (UpdateFacts.postPreferences_store req d)
      as [-> | (oid & p & ->)]; [reflexivity |].
    cbn [Mongo.users]. apply UpdateFacts.replaceFirst_map.
    intro u. reflexivity.
  - destruct (UpdateFacts.postUpdateUsr_store sign secret isProd req d)
      as [-> | (oid & update & ->)]; [reflexivity |].
    cbn [Mongo.users]. apply UpdateFacts.replaceFirst_map.
    intro u. apply UpdateFacts.applySet_columns.
Qed.

Module ReadFacts.

Lemma newObjectId_truthy (v : value) (oid : Mongo.ObjectId) :
  Mongo.newObjectId v = Normal oid -> truthy v = true.
Proof.
  destruct v as [| | | | s | |]; try discriminate.
  destruct s; [discriminate | reflexivity].
Qed.

Lemma coalesce_not_nullish (v : value) : nullish (coalesce v (VObj [])) = false.
Proof.
  unfold coalesce. destruct (nullish v) eqn:E; [reflexivity | exact E].
Qed.

End ReadFacts.

(** Replacing the preferences of the record a token names, then reading
    them back through [GET /api/me] with a request of the same username. *)
Lemma replace_then_read
    (ops : list (string * value) -> string -> bool)
    (req req2 : request) (d : Mongo.db) (name : string) (u : Mongo.user)
    (p : value) :
  nullish (body req) = false ->
  prop (body req) "preferences" = p ->
  typeof p = "object" ->
  Mongo.newObjectId (userId req) = Normal (Mongo._id u) ->
  userName req2 = VStr name ->
  name <> "" ->
  NoDup (map Mongo._id (Mongo.users d)) ->
  Mongo.findOne name d = Some u ->
  snd (postPreferences req d)
  = Normal [json (VObj [("message",
                         VStr "Preferences updated successfully")])]
  /\ Mongo.findOne name (fst (postPreferences req d))
     = Some (Notions.withPreferencesOf u p)
  /\ getMe ops req2 (fst (postPreferences req d))
     = (fst (postPreferences req d),
        Normal [json (VObj [("username", VStr name);
                            ("preferences", coalesce p (VObj []))])]).
Proof.
  intros HB HP HT HO HN HE HD HF.
  set (d' := fst (postPreferences req d)).
  assert (HI : truthy (userId req) = true)
    by (eapply ReadFacts.newObjectId_truthy; exact HO).
  assert (E : postPreferences req d
              = (Mongo.mkDb
                   (Mongo.replaceFirst (Mongo._id u)
                      (fun v => Mongo.applySet v [("preferences", p)])
                      (Mongo.users d))
                   (Mongo.counter d),
                 Normal [json (VObj [("message",
                               VStr "Preferences updated successfully")])])).
  { unfold postPreferences, tryCatch, bind, lift, member, ret.
    rewrite HB, HP, HT, HI, HO. reflexivity. }
  assert (F : Mongo.findOne name d' = Some (Notions.withPreferencesOf u p)).
  { subst d'. rewrite E. unfold Mongo.findOne. cbn [fst Mongo.users].
    rewrite UpdateFacts.find_replaceFirst; [| exact HD | reflexivity].
    unfold Mongo.findOne in HF. rewrite HF. cbn [option_map].
    rewrite String.eqb_refl. reflexivity. }
  split; [rewrite E; reflexivity |]. split; [exact F |].
  assert (HName : name = Mongo.username u).
  { unfold Mongo.findOne in HF. apply find_some in HF as [_ HF].
    apply String.eqb_eq in HF. congruence. }
  assert (HTn : truthy (VStr name) = true).
  { simpl. apply negb_true_iff, String.eqb_neq. exact HE. }
  unfold getMe, tryCatch, bind, query, ret. rewrite HN, HTn. cbn [negb].
  change (findOneBy ops (VStr name) d') with (Mongo.findOne name d').
  rewrite F. cbn [Notions.withPreferencesOf Mongo.username Mongo.preferences].
  rewrite <- HName. reflexivity.
Qed.

(** X14.  Replace, then read: when the token names a stored record by
    identity and by username (identities being distinct), a
    [POST /api/preferences] with an object [p] answers 200, makes [p] that
    record's preferences and changes no other field of it, and a
    following [GET /api/me] with the same token answers its username and
    [p] (or [{}] where [p] is [null]). *)
Theorem preferences_round_trip :
  forall (queryOperators : list (string * value) -> string -> bool)
         (req : request) (d : Mongo.db) (name : string) (u : Mongo.user)
         (p : value),
    nullish (body req) = false ->
    prop (body req) "preferences" = p ->
    typeof p = "object" ->
    Mongo.newObjectId (userId req) = Normal (Mongo._id u) ->
    userName req = VStr name ->
    name <> "" ->
    NoDup (map Mongo._id (Mongo.users d)) ->
    Mongo.findOne name d = Some u ->
    let d' := fst (postPreferences req d) in
    snd (postPreferences req d)
    = Normal [json (VObj [("message",
                           VStr "Preferences updated successfully")])]
    /\ Mongo.findOne name d' = Some (Notions.withPreferencesOf u p)
    /\ getMe queryOperators req d'
       = (d', Normal [json (VObj [("username", VStr name);
                                  ("preferences", coalesce p (VObj []))])]).
Proof.
  intros ops req d name u p HB HP HT HO HN HE HD HF d'.
  exact (replace_then_read ops req req d name u p HB HP HT HO HN HE HD HF).
Qed.

Lemma preferences_round_trip_witness :
  let alice prefs :=
    Mongo.mkUser "000000000000000000000000" "alice" "$2b$15$hash"
      "alice@example.com" prefs 0 in
  let bob :=
    Mongo.mkUser "000000000000000000000001" "bob" "$2b$15$hash2"
      "bob@example.com" (VObj []) 0 in
  let req :=
    mkRequest (VStr "token")
      (VObj [("preferences", VObj [("team", VStr "NE")])])
      (Some (mkIdentity (VStr "000000000000000000000000") (VStr "alice"))) in
  let d' := fst (postPreferences req (Mongo.mkDb [bob; alice (VObj [])] 2)) in
  snd (postPreferences req (Mongo.mkDb [bob; alice (VObj [])] 2))
  = Normal [json (VObj [("message",
                         VStr "Preferences updated successfully")])]
  /\ Mongo.findOne "alice" d'
     = Some (Notions.withPreferencesOf (alice (VObj []))
               (VObj [("team", VStr "NE")]))
  /\ getMe (fun _ _ => false) req d'
     = (d', Normal [json (VObj [("username", VStr "alice");
                                ("preferences",
                                 coalesce (VObj [("team", VStr "NE")])
                                   (VObj []))])]).
Proof.
  intros alice bob req d'.
  apply (preferences_round_trip (fun _ _ => false) req
           (Mongo.mkDb [bob; alice (VObj [])] 2) "alice" (alice (VObj []))
           (VObj [("team", VStr "NE")]));
    try reflexivity.
  - discriminate.
  - repeat constructor; simpl; intuition discriminate.
Defined.

(** The two shapes of a [GET /api/me] response. *)
Lemma getMe_shape
    (ops : list (string * value) -> string -> bool) (req : request)
    (d : Mongo.db) :
  snd (getMe ops req d)
  = Normal [status 401; json (errorBody "not logged in")]
  \/ exists u p,
       snd (getMe ops req d)
       = Normal [json (VObj [("username", VStr (Mongo.username u));
                             ("preferences", p)])].
Proof.
  unfold getMe, tryCatch, bind, query, ret.
  destruct (negb (truthy (userName req))); [left; reflexivity |].
  destruct (findOneBy ops (userName req) d) as [u |]; [| left; reflexivity].
  right. eexists u, _. reflexivity.
Qed.

(** X15.  [GET /api/me] only reads, and what it answers is either 401
    "not logged in" or the username of a stored record with that record's
    preferences, [{}] standing in for missing ones: no password hash, no
    e-mail, no identity, and never nullish preferences. *)
Theorem getMe_answers_name_and_preferences_only :
  forall (queryOperators : list (string * value) -> string -> bool)
         (req : request) (d : Mongo.db),
    fst (getMe queryOperators req d) = d
    /\ (snd (getMe queryOperators req d)
        = Normal [status 401; json (errorBody "not logged in")]
        \/ exists u p,
             In u (Mongo.users d)
             /\ p = coalesce (Mongo.preferences u) (VObj [])
             /\ nullish p = false
             /\ snd (getMe queryOperators req d)
                = Normal [json (VObj [("username", VStr (Mongo.username u));
                                      ("preferences", p)])]).
Proof.
  intros ops req d. unfold getMe, tryCatch, bind, query, ret.
  destruct (negb (truthy (userName req))); [split; [| left]; reflexivity |].
  destruct (findOneBy ops (userName req) d) as [u |] eqn:E;
    [| split; [| left]; reflexivity].
  split; [reflexivity |]. right.
  exists u, (coalesce (Mongo.preferences u) (VObj [])).
  repeat split.
  - unfold findOneBy in E. apply find_some in E. apply E.
  - apply ReadFacts.coalesce_not_nullish.
Qed.

(** X16.  The handlers that wrap their body in [try] never throw: for
    every request and store, [POST /api/preferences],
    [POST /api/updateUsr] and [GET /api/me] complete with a response whose
    status is 200, 400, 401 or 500. *)
Theorem wrapped_handlers_never_throw :
  forall (jwt_sign : value -> value -> string -> string)
         (JWT_SECRET : value) (isProd : bool)
         (queryOperators : list (string * value) -> string -> bool)
         (req : request) (d : Mongo.db) (c : completion (list effect)),
    In c [snd (postPreferences req d);
          snd (postUpdateUsr jwt_sign JWT_SECRET isProd req d);
          snd (getMe queryOperators req d)] ->
    exists es,
      c = Normal es /\ In (statusOf es) [200; 400; 401; 500].
Proof.
  intros sign secret isProd ops req d c [<- | [<- | [<- | []]]].
  - unfold postPreferences, tryCatch, bind, lift, member, ret.
    destruct (nullish (body req));
      [eexists; split; [reflexivity | simpl; auto] |].
    destruct (negb (typeof (prop (body req) "preferences") =? "object")%string);
      [eexists; split; [reflexivity | simpl; auto] |].
    destruct (negb (truthy (userId req)));
      [eexists; split; [reflexivity | simpl; auto] |].
    destruct (Mongo.newObjectId (userId req)) as [oid | e];
      [| eexists; split; [reflexivity | simpl; auto]].
    unfold Mongo.updateOne.
    destruct (Mongo.renameCollides oid _ d);
      eexists; (split; [reflexivity | simpl; auto]).
  - unfold postUpdateUsr, tryCatch, bind, lift, ret.
    destruct (nullish (body req));
      [eexists; split; [reflexivity | simpl; auto] |].
    destruct (negb (truthy (userId req)));
      [eexists; split; [reflexivity | simpl; auto] |].
    destruct (List.length _ =? 0)%nat;
      [eexists; split; [reflexivity | simpl; auto] |].
    destruct (Mongo.newObjectId (userId req)) as [oid | e];
      [| eexists; split; [reflexivity | simpl; auto]].
    unfold Mongo.updateOne.
    destruct (Mongo.renameCollides oid _ d);
      [eexists; split; [reflexivity | simpl; auto] |].
    cbn [snd]. eexists. split; [reflexivity |].
    destruct (truthy (prop _ "username")); [destruct (truthy secret) |];
      simpl; auto.
  - destruct (getMe_shape ops req d) as [-> | (u & p & ->)];
      eexists; (split; [reflexivity | simpl; auto]).
Qed.

Lemma wrapped_handlers_never_throw_witness :
  exists es,
    snd (postPreferences (mkRequest VUndefined VUndefined None) Mongo.empty)
    = Normal es
    /\ In (statusOf es) [200; 400; 401; 500].
Proof.
  apply (wrapped_handlers_never_throw (fun _ _ _ => "signed") (VStr "secret")
           false (fun _ _ => false) (mkRequest VUndefined VUndefined None)
           Mongo.empty).
  left. reflexivity.
Defined.

Module RenameFacts.

Lemma map_replaceFirst (A : Type) (g : Mongo.user -> A)
    (i : Mongo.ObjectId) (f : Mongo.user -> Mongo.user) (l : list Mongo.user) :
  NoDup (map Mongo._id l) ->
  map g (Mongo.replaceFirst i f l)
  = map (fun v => if (Mongo._id v =? i)%string then g (f v) else g v) l.
Proof.
  induction l as [| a l IH]; simpl; intro HN; [reflexivity |].
  inversion HN as [| ? ? Hnotin HN']; subst.
  destruct (Mongo._id a =? i)%string eqn:Ea; simpl.
  - f_equal. apply map_ext_in. intros v Hin.
    destruct (Mongo._id v =? i)%string eqn:Ev; [| reflexivity].
    exfalso. apply Hnotin. apply String.eqb_eq in Ea, Ev.
    rewrite Ea, <- Ev. apply in_map, Hin.
  - f_equal. apply IH, HN'.
Qed.

Lemma username_applySet (u : Mongo.user) (t : string)
    (rest : list (string * value)) :
  (rest = [] \/ exists p, rest = [("preferences", p)]) ->
  Mongo.username (Mongo.applySet u (("username", VStr t) :: rest)) = t.
Proof.
  intros [-> | [p ->]]; reflexivity.
Qed.

Lemma withPreferences_cases (p : value) (update : list (string * value)) :
  withPreferences p update = update
  \/ withPreferences p update = update ++ [("preferences", p)].
Proof.
  unfold withPreferences.
  destruct (truthy p && (typeof p =? "object")%string); auto.
Qed.

Lemma withUsername_unusable (v : value) :
  ~ Design.usableUsername v -> withUsername v [] = [].
Proof.
  intro H. unfold withUsername. destruct v; try reflexivity.
  destruct (truthy (VStr (trim s))) eqn:E; [| reflexivity].
  apply StringFacts.truthy_trim in E. contradiction.
Qed.

End RenameFacts.

(** X17.  A rename that the store accepts: with identities distinct, the
    record of the token's identity, and no other, gets the trimmed
    username; the response carries that username; and, when a secret is
    configured, a new [auth] cookie signed for one day over the token's
    identity and the new username (without a secret the rename still
    happens and no cookie is issued). *)
Theorem rename_reissues_cookie :
  forall (jwt_sign : value -> value -> string -> string)
         (JWT_SECRET : value) (isProd : bool)
         (req : request) (d : Mongo.db) (s : string) (oid : Mongo.ObjectId),
    prop (body req) "username" = VStr s ->
    trim s <> "" ->
    Mongo.newObjectId (userId req) = Normal oid ->
    NoDup (map Mongo._id (Mongo.users d)) ->
    (forall v, In v (Mongo.users d) ->
               Mongo._id v <> oid -> Mongo.username v <> trim s) ->
    let out := postUpdateUsr jwt_sign JWT_SECRET isProd req d in
    map Mongo.username (Mongo.users (fst out))
    = map (fun v => if (Mongo._id v =? oid)%string then trim s
                    else Mongo.username v) (Mongo.users d)
    /\ exists echoed,
         snd out
         = Normal
             ((if truthy JWT_SECRET
               then [cookie "auth"
                       (jwt_sign (VObj [("userId", userId req);
                                        ("username", VStr (trim s))])
                          JWT_SECRET "1d")
                       (mkCookieOptions true isProd "lax" 86400000)]
               else [])
              ++ [json (VObj [("message", VStr "User updated successfully");
                              ("username", VStr (trim s));
                              ("preferences", echoed)])]).
Proof.
  intros sign secret isProd req d s oid HU HT HO HN HC out.
  assert (HB : nullish (body req) = false).
  { destruct (body req); try reflexivity; discriminate HU. }
  assert (HI : truthy (userId req) = true)
    by (eapply ReadFacts.newObjectId_truthy; exact HO).
  assert (HTt : truthy (VStr (trim s)) = true).
  { simpl. apply negb_true_iff, String.eqb_neq. exact HT. }
  assert (HW : withUsername (VStr s) [] = [("username", VStr (trim s))]).
  { unfold withUsername. rewrite HTt. reflexivity. }
  assert (HR : forall rest,
             Mongo.renameCollides oid (("username", VStr (trim s)) :: rest) d
             = false).
  { intro rest. unfold Mongo.renameCollides.
    cbn [assoc String.eqb Ascii.eqb Bool.eqb].
    apply andb_false_iff. right.
    destruct (existsb _ _) eqn:E; [| reflexivity].
    apply existsb_exists in E as (v & Hin & Hv).
    apply andb_true_iff in Hv as [H1 H2].
    apply negb_true_iff, String.eqb_neq in H1. apply String.eqb_eq in H2.
    exfalso. exact (HC v Hin H1 H2). }
  subst out. unfold postUpdateUsr, tryCatch, bind, lift, ret.
  rewrite HB, HI, HU, HW. cbn [negb].
  destruct (RenameFacts.withPreferences_cases
              (prop (body req) "preferences") [("username", VStr (trim s))])
    as [-> | ->]; cbn [app List.length keys map fst Nat.eqb];
    rewrite HO; unfold Mongo.updateOne; rewrite HR;
    cbn [fst snd Mongo.users prop assoc String.eqb Ascii.eqb Bool.eqb];
    rewrite HTt.
  - split.
    + rewrite RenameFacts.map_replaceFirst by exact HN. reflexivity.
    + eexists. destruct (truthy secret); reflexivity.
  - split.
    + rewrite RenameFacts.map_replaceFirst by exact HN. reflexivity.
    + eexists. destruct (truthy secret); reflexivity.
Qed.

Lemma rename_reissues_cookie_witness :
  let alice :=
    Mongo.mkUser "000000000000000000000000" "alice" "$2b$15$hash"
      "alice@example.com" (VObj []) 0 in
  let req :=
    mkRequest (VStr "token") (VObj [("username", VStr " carol ")])
      (Some (mkIdentity (VStr "000000000000000000000000")
               (VStr "alice"))) in
  let out := postUpdateUsr (fun _ _ _ => "resigned") (VStr "secret") false
               req (Mongo.mkDb [alice] 1) in
  map Mongo.username (Mongo.users (fst out)) = ["carol"]
  /\ exists echoed,
       snd out
       = Normal
           ([cookie "auth" "resigned"
               (mkCookieOptions true false "lax" 86400000)]
            ++ [json (VObj [("message", VStr "User updated successfully");
                            ("username", VStr "carol");
                            ("preferences", echoed)])]).
Proof.
  intros alice req out.
  apply (rename_reissues_cookie (fun _ _ _ => "resigned") (VStr "secret")
           false req (Mongo.mkDb [alice] 1) " carol "
           "000000000000000000000000").
  - reflexivity.
  - discriminate.
  - reflexivity.
  - repeat constructor; simpl; intuition.
  - intros v [<- | []] H. exfalso. apply H. reflexivity.
Defined.

(** X18.  Without a usable new username (a string with non-whitespace
    content) [POST /api/updateUsr] renames nobody and issues no cookie,
    whatever else the request holds and however it ends. *)
Theorem no_rename_without_username :
  forall (jwt_sign : value -> value -> string -> string)
         (JWT_SECRET : value) (isProd : bool)
         (req : request) (d : Mongo.db),
    ~ Design.usableUsername (prop (body req) "username") ->
    let out := postUpdateUsr jwt_sign JWT_SECRET isProd req d in
    map Mongo.username (Mongo.users (fst out))
    = map Mongo.username (Mongo.users d)
    /\ exists es,
         snd out = Normal es /\ existsb Notions.isCookie es = false.
Proof.
  intros sign secret isProd req d HU out. subst out.
  unfold postUpdateUsr, tryCatch, bind, lift, ret.
  destruct (nullish (body req));
    [split; [reflexivity | eexists; split; reflexivity] |].
  destruct (negb (truthy (userId req)));
    [split; [reflexivity | eexists; split; reflexivity] |].
  rewrite (RenameFacts.withUsername_unusable _ HU).
  destruct (RenameFacts.withPreferences_cases
              (prop (body req) "preferences") []) as [-> | ->];
    cbn [app List.length keys map fst Nat.eqb];
    [split; [reflexivity | eexists; split; reflexivity] |].
  destruct (Mongo.newObjectId (userId req)) as [oid | e];
    [| split; [reflexivity | eexists; split; reflexivity]].
  unfold Mongo.updateOne.
  cbn [Mongo.renameCollides assoc String.eqb Ascii.eqb Bool.eqb
       fst snd Mongo.users prop truthy app].
  split.
  - apply UpdateFacts.replaceFirst_map. intro u. reflexivity.
  - eexists. split; reflexivity.
Qed.

Lemma no_rename_without_username_witness :
  let alice :=
    Mongo.mkUser "000000000000000000000000" "alice" "$2b$15$hash"
      "alice@example.com" (VObj []) 0 in
  let req :=
    mkRequest (VStr "token")
      (VObj [("username", VNum 7); ("preferences", VObj [("team", VStr "NE")])])
      (Some (mkIdentity (VStr "000000000000000000000000")
               (VStr "alice"))) in
  let out := postUpdateUsr (fun _ _ _ => "resigned") (VStr "secret") false
               req (Mongo.mkDb [alice] 1) in
  map Mongo.username (Mongo.users (fst out)) = ["alice"]
  /\ exists es, snd out = Normal es /\ existsb Notions.isCookie es = false.
Proof.
  intros alice req out.
  apply (no_rename_without_username (fun _ _ _ => "resigned") (VStr "secret")
           false req (Mongo.mkDb [alice] 1)).
  intros (s & c & E & _). discriminate E.
Defined.

(** X19.  A rename of a stored record to a username that another record
    holds is refused by the store as a duplicate key; the handler answers
    500 "Server error", changes nothing and issues no cookie. *)
Theorem rename_to_taken_username :
  forall (jwt_sign : value -> value -> string -> string)
         (JWT_SECRET : value) (isProd : bool)
         (req : request) (d : Mongo.db) (s : string) (oid : Mongo.ObjectId)
         (own other : Mongo.user),
    prop (body req) "username" = VStr s ->
    trim s <> "" ->
    Mongo.newObjectId (userId req) = Normal oid ->
    In own (Mongo.users d) ->
    Mongo._id own = oid ->
    In other (Mongo.users d) ->
    Mongo._id other <> oid ->
    Mongo.username other = trim s ->
    postUpdateUsr jwt_sign JWT_SECRET isProd req d
    = (d, Normal [status 500; json (errorBody "Server error")]).
Proof.
  intros sign secret isProd req d s oid own other
         HU HT HO Hown Hownid Hin Hid Hname.
  assert (HB : nullish (body req) = false).
  { destruct (body req); try reflexivity; discriminate HU. }
  assert (HI : truthy (userId req) = true)
    by (eapply ReadFacts.newObjectId_truthy; exact HO).
  assert (HTt : truthy (VStr (trim s)) = true).
  { simpl. apply negb_true_iff, String.eqb_neq. exact HT. }
  assert (HR : forall rest,
             Mongo.renameCollides oid (("username", VStr (trim s)) :: rest) d
             = true).
  { intro rest. unfold Mongo.renameCollides.
    cbn [assoc String.eqb Ascii.eqb Bool.eqb].
    apply andb_true_iff. split.
    - apply existsb_exists. exists own. split; [exact Hown |].
      apply String.eqb_eq. exact Hownid.
    - apply existsb_exists. exists other. split; [exact Hin |].
      apply andb_true_iff. split.
      + apply negb_true_iff, String.eqb_neq. exact Hid.
      + apply String.eqb_eq. exact Hname. }
  unfold postUpdateUsr, tryCatch, bind, lift, ret.
  rewrite HB, HI, HU. cbn [negb]. unfold withUsername. rewrite HTt.
  destruct (RenameFacts.withPreferences_cases
              (prop (body req) "preferences") ([] ++ [("username", VStr (trim s))]))
    as [-> | ->]; cbn [app List.length keys map fst Nat.eqb];
    rewrite HO; unfold Mongo.updateOne; rewrite HR; reflexivity.
Qed.

Lemma rename_to_taken_username_witness :
  let alice :=
    Mongo.mkUser "000000000000000000000000" "alice" "$2b$15$hash"
      "alice@example.com" (VObj []) 0 in
  let bob :=
    Mongo.mkUser "000000000000000000000001" "bob" "$2b$15$hash2"
      "bob@example.com" (VObj []) 0 in
  let req :=
    mkRequest (VStr "token") (VObj [("username", VStr "bob ")])
      (Some (mkIdentity (VStr "000000000000000000000000")
               (VStr "alice"))) in
  postUpdateUsr (fun _ _ _ => "resigned") (VStr "secret") false req
    (Mongo.mkDb [alice; bob] 2)
  = (Mongo.mkDb [alice; bob] 2,
     Normal [status 500; json (errorBody "Server error")]).
Proof.
  intros alice bob req.
  apply (rename_to_taken_username (fun _ _ _ => "resigned") (VStr "secret")
           false req (Mongo.mkDb [alice; bob] 2) "bob "
           "000000000000000000000000" alice bob).
  - reflexivity.
  - discriminate.
  - reflexivity.
  - left. reflexivity.
  - reflexivity.
  - right. left. reflexivity.
  - discriminate.
  - reflexivity.
Defined.

(* ===================================================================== *)
(** ** Pages and logout *)
(* ===================================================================== *)

(** X20.  [GET /login] and [GET /signup] (and their [.html] twins) send
    their page exactly when the request carries no [auth] cookie.  Every
    request with a cookie is redirected to [/]: by the guard when the
    token is valid, by the handler otherwise, a stale cookie included,
    since the handler tests the request's cookie again. *)
Theorem anonymous_pages_need_no_cookie :
  forall (jwt_verify : value -> value -> option value)
         (JWT_SECRET : value) (file : string)
         (req : request) (d : Mongo.db),
    exists rs,
      pageRoute (reverseAuthPage jwt_verify JWT_SECRET)
        (anonymousPage file) req d = (d, Normal rs)
      /\ (rs = [sendFile file] <-> truthy (auth req) = false)
      /\ (Notions.sendsFile rs <-> truthy (auth req) = false)
      /\ (In (res (redirect "/")) rs <-> truthy (auth req) = true).
Proof.
  intros verify secret file req d.
  unfold pageRoute, reverseAuthPage, anonymousPage, bind, ret,
    Notions.sendsFile.
  destruct (truthy (auth req)) eqn:Ha, (truthy secret),
    (verify (auth req) secret) as [decoded |]; simpl; rewrite ?Ha;
    eexists; (split; [reflexivity |]); simpl;
    repeat split; try discriminate; auto;
    try (intros [p H]); try intro H;
    repeat (destruct H as [H | H]; try discriminate H);
    try contradiction; eauto.
Qed.

(** X21.  A gated page ([/settings], [/dashboard], [/news], ...) is sent
    only to a request whose token verifies and whose decoded username
    matches a stored record, and then the response is that file alone;
    every other request is redirected, to [/login] by the guard or to [/]
    by the handler.  The store is only read. *)
Theorem gated_pages_need_a_known_user :
  forall (jwt_verify : value -> value -> option value)
         (JWT_SECRET : value)
         (queryOperators : list (string * value) -> string -> bool)
         (file : string) (req : request) (d : Mongo.db),
    exists rs,
      getGated jwt_verify JWT_SECRET queryOperators file req d
      = (d, Normal rs)
      /\ (Notions.sendsFile rs
          <-> exists decoded u,
                Notions.verifiedAs jwt_verify JWT_SECRET req decoded
                /\ findOneBy queryOperators (prop decoded "username") d
                   = Some u)
      /\ (rs = [sendFile file]
          \/ rs = [res (redirect "/login")]
          \/ rs = [res (clearCookie "auth"); res (redirect "/login")]
          \/ rs = [res (redirect "/")]).
Proof.
  intros verify secret ops file req d.
  unfold getGated, pageRoute, requireAuthPage, gatedPage, tryCatch, bind,
    query, ret, Notions.sendsFile, Notions.verifiedAs.
  destruct (truthy (auth req)) eqn:Ha, (truthy secret) eqn:Hs; simpl;
    try (eexists; split; [reflexivity |]; split; [| auto];
         split; [ intros [p [H | []]]; discriminate H
                | intros (x & u & (H1 & H2 & _) & _); discriminate ]).
  destruct (verify (auth req) secret) as [decoded |] eqn:Hv; simpl.
  - unfold userName, attach. cbn [user username].
    destruct (findOneBy ops (prop decoded "username") d) as [u |] eqn:Hf;
      simpl; eexists; (split; [reflexivity |]); (split; [| auto]).
    + split; [| intros _; exists file; left; reflexivity].
      intros _. exists decoded, u. auto.
    + split; [intros [p [H | []]]; discriminate H |].
      intros (x & u & (_ & _ & H3) & H4). injection H3 as <-. congruence.
  - eexists. split; [reflexivity |]. split; [| auto].
    split; [intros [p [H | [H | []]]]; discriminate H |].
    intros (x & u & (_ & _ & H3) & _). discriminate H3.
Qed.

(** X22.  [GET /pref] sends the team setter only when, on top of that,
    the record found has no truthy [team] among its preferences; a record
    with a team is redirected to [/]. *)
Theorem pref_page_needs_no_team :
  forall (jwt_verify : value -> value -> option value)
         (JWT_SECRET : value)
         (queryOperators : list (string * value) -> string -> bool)
         (req : request) (d : Mongo.db),
    exists rs,
      getPref jwt_verify JWT_SECRET queryOperators req d = (d, Normal rs)
      /\ (Notions.sendsFile rs
          <-> exists decoded u,
                Notions.verifiedAs jwt_verify JWT_SECRET req decoded
                /\ findOneBy queryOperators (prop decoded "username") d
                   = Some u
                /\ truthy (optionalProp (Mongo.preferences u) "team") = false)
      /\ (Notions.sendsFile rs -> rs = [sendFile "../pages/pref.html"]).
Proof.
  intros verify secret ops req d.
  unfold getPref, pageRoute, requireAuthPage, prefPage, tryCatch, bind,
    query, ret, Notions.sendsFile, Notions.verifiedAs.
  destruct (truthy (auth req)) eqn:Ha, (truthy secret) eqn:Hs; simpl;
    try (eexists; split; [reflexivity |];
         split; [split |];
         [ intros [p [H | []]]; discriminate H
         | intros (x & u & (H1 & H2 & _) & _); discriminate
         | intros [p [H | []]]; discriminate H ]).
  destruct (verify (auth req) secret) as [decoded |] eqn:Hv; simpl.
  - unfold userName, attach. cbn [user username].
    destruct (findOneBy ops (prop decoded "username") d) as [u |] eqn:Hf;
      simpl.
    + destruct (truthy (optionalProp (Mongo.preferences u) "team")) eqn:Ht;
        simpl; eexists; (split; [reflexivity |]); (split; [split |]).
      * intros [p [H | []]]; discriminate H.
      * intros (x & v & (_ & _ & H3) & H4 & H5). injection H3 as <-.
        rewrite Hf in H4. injection H4 as <-. congruence.
      * intros [p [H | []]]; discriminate H.
      * intros _. exists decoded, u. auto.
      * intros _. exists "../pages/pref.html". left. reflexivity.
      * reflexivity.
    + eexists. split; [reflexivity |]. split; [split |].
      * intros [p [H | []]]; discriminate H.
      * intros (x & v & (_ & _ & H3) & H4 & _). injection H3 as <-.
        congruence.
      * intros [p [H | []]]; discriminate H.
  - eexists. split; [reflexivity |]. split; [split |].
    + intros [p [H | [H | []]]]; discriminate H.
    + intros (x & v & (_ & _ & H3) & _). discriminate H3.
    + intros [p [H | [H | []]]]; discriminate H.
Qed.

(** X23.  The direct routes [/settings.html] and [/pref.html] apply the
    guard and nothing else: any verified token is sent the file without
    the store being consulted, also where the canonical route of the same
    page, finding no record for the token's username, redirects to [/]. *)
Theorem direct_pages_skip_the_store :
  forall (jwt_verify : value -> value -> option value)
         (JWT_SECRET : value)
         (queryOperators : list (string * value) -> string -> bool)
         (file : string) (req : request) (d : Mongo.db) (decoded : value),
    Notions.verifiedAs jwt_verify JWT_SECRET req decoded ->
    findOneBy queryOperators (prop decoded "username") d = None ->
    getDirect jwt_verify JWT_SECRET file req d = (d, Normal [sendFile file])
    /\ getGated jwt_verify JWT_SECRET queryOperators file req d
       = (d, Normal [res (redirect "/")])
    /\ getPref jwt_verify JWT_SECRET queryOperators req d
       = (d, Normal [res (redirect "/")]).
Proof.
  intros verify secret ops file req d decoded (Hs & Ha & Hv) Hf.
  unfold getDirect, getGated, getPref, pageRoute, requireAuthPage,
    directPage, gatedPage, prefPage, tryCatch, bind, query, ret.
  rewrite Hs, Ha, Hv. simpl. unfold userName, attach. cbn [user username].
  rewrite Hf. repeat split.
Qed.

Lemma direct_pages_skip_the_store_witness :
  let verify := fun (_ _ : value) =>
                  Some (VObj [("userId", VStr "000000000000000000000000");
                              ("username", VStr "alice")]) in
  let req := mkRequest (VStr "token") VUndefined None in
  getDirect verify (VStr "secret") "../pages/settings.html" req Mongo.empty
  = (Mongo.empty, Normal [sendFile "../pages/settings.html"])
  /\ getGated verify (VStr "secret") (fun _ _ => false)
       "../pages/settings.html" req Mongo.empty
     = (Mongo.empty, Normal [res (redirect "/")])
  /\ getPref verify (VStr "secret") (fun _ _ => false) req Mongo.empty
     = (Mongo.empty, Normal [res (redirect "/")]).
Proof.
  intros verify req.
  apply (direct_pages_skip_the_store verify (VStr "secret")
           (fun _ _ => false) "../pages/settings.html" req Mongo.empty
           (VObj [("userId", VStr "000000000000000000000000");
                  ("username", VStr "alice")])).
  - repeat split.
  - reflexivity.
Defined.

(** X24.  [GET /logout] sits behind [requireAuth]: a valid token gets
    the cookie cleared (by name, with the cookie's own options and path
    [/]) and a redirect to [/]; an invalid one gets the cookie cleared by
    the guard and a 401; with no cookie, or no secret, nothing is cleared.
    So the cookie is cleared exactly when a secret is configured and the
    request carries one, and the redirect is sent exactly to verified
    tokens. *)
Theorem logout_clears_the_cookie :
  forall (jwt_verify : value -> value -> option value)
         (JWT_SECRET : value) (isProd : bool)
         (req : request) (d : Mongo.db),
    exists rs,
      logout jwt_verify JWT_SECRET isProd req d = (d, Normal rs)
      /\ (In (res (clearCookie "auth")) rs
          \/ In (clearCookieWith "auth" true isProd "lax" "/") rs
          <-> truthy JWT_SECRET = true /\ truthy (auth req) = true)
      /\ (In (res (redirect "/")) rs
          <-> exists decoded,
                Notions.verifiedAs jwt_verify JWT_SECRET req decoded).
Proof.
  intros verify secret isProd req d.
  unfold logout, pageRoute, requireAuth, getLogout, bind, ret,
    Notions.verifiedAs.
  destruct (truthy secret), (truthy (auth req)),
    (verify (auth req) secret) as [decoded |]; simpl;
    eexists; (split; [reflexivity |]); simpl;
    (split; split);
    try (intros [H | H]); try (intros (x & H1 & H2 & H3)); try intro H;
    repeat (destruct H as [H | H]; try discriminate H);
    try contradiction; try discriminate; try (destruct H; discriminate);
    eauto 6.
Qed.

(* ===================================================================== *)
(** ** db.js *)
(* ===================================================================== *)

Module ConnectionFacts.
Import Connection.

Lemma connectDB_unconnected (a : attempt) (st : state) :
  db st = None ->
  db (fst (connectDB a st))
  = if connects a then Some (handleOf a) else None.
Proof.
  intro H. unfold connectDB, connects, handleOf. rewrite H.
  destruct (MONGODB_URI a) as [u |]; [| exact H].
  destruct (u =? "")%string; [exact H |].
  destruct (driver a u); simpl; auto.
Qed.

Lemma connectDB_connected (a : attempt) (st : state) (h : handle) :
  db st = Some h -> connectDB a st = (st, Normal h).
Proof.
  intro H. unfold connectDB. rewrite H. reflexivity.
Qed.

Lemma after_connected (attempts : list attempt) :
  forall st h, db st = Some h -> after attempts st = st.
Proof.
  unfold after. induction attempts as [| a l IH]; intros st h H; simpl.
  - reflexivity.
  - rewrite (connectDB_connected a st h H). simpl. apply (IH st h H).
Qed.

Lemma after_unconnected (attempts : list attempt) :
  forall st, db st = None ->
    db (after attempts st) = option_map handleOf (find connects attempts).
Proof.
  induction attempts as [| a l IH]; intros st H; simpl.
  - exact H.
  - pose proof (connectDB_unconnected a st H) as E.
    change (after (a :: l) st) with (after l (fst (connectDB a st))).
    destruct (connects a).
    + rewrite (after_connected l _ (handleOf a) E). exact E.
    + apply IH. exact E.
Qed.

End ConnectionFacts.

(** X25.  The connection is a singleton made by the first [connectDB]
    that succeeds.  After any series of [connectDB] calls, under whatever
    environment and driver outcome each one met, [getDB] throws "must
    connect to DB first" if none of them connected, and otherwise returns
    the handle of the first that did; from then on every [connectDB]
    returns that same handle and changes nothing, whatever its
    environment says. *)
Theorem connection_is_made_once :
  forall (attempts : list Connection.attempt),
    Connection.getDB (Connection.after attempts Connection.initial)
    = match find Connection.connects attempts with
      | Some a => Normal (Connection.handleOf a)
      | None => Throw (Error "must connect to DB first")
      end
    /\ forall a later,
         find Connection.connects attempts = Some a ->
         Connection.connectDB later
           (Connection.after attempts Connection.initial)
         = (Connection.after attempts Connection.initial,
            Normal (Connection.handleOf a)).
Proof.
  intro attempts.
  pose proof (ConnectionFacts.after_unconnected attempts Connection.initial
                eq_refl) as E.
  split.
  - unfold Connection.getDB. rewrite E.
    destruct (find Connection.connects attempts); reflexivity.
  - intros a later Ha. rewrite Ha in E.
    apply ConnectionFacts.connectDB_connected. exact E.
Qed.

(* ===================================================================== *)
(** ** What passes [validate] *)
(* ===================================================================== *)

Module AcceptedFacts.

Lemma count_segment (w : list ascii) :
  Design.segment w -> count_occ ascii_dec w "@"%char = 0.
Proof.
  intros [_ H]. apply count_occ_not_In. intro Hin.
  rewrite Forall_forall in H. destruct (H _ Hin) as [_ Hne]. congruence.
Qed.

Lemma segment_no_space (w : list ascii) :
  Design.segment w -> Forall (fun c => isWhiteSpace c = false) w.
Proof.
  intros [_ H]. eapply Forall_impl; [| exact H]. intros c [Hc _]. exact Hc.
Qed.

Lemma segment_length (w : list ascii) : Design.segment w -> 1 <= List.length w.
Proof.
  intros [H _]. destruct w; [congruence | simpl; lia].
Qed.

Lemma string_length_of_list (w : list ascii) :
  String.length (string_of_list_ascii w) = List.length w.
Proof.
  induction w as [| c w IH]; simpl; [reflexivity | rewrite IH; reflexivity].
Qed.

End AcceptedFacts.

(** The lengths [validate] insists on. *)
Lemma validate_accepts_only_well_formed_len (u p e : string) :
  validate (VStr u) (VStr p) (VStr e) (VObj []) = None ->
  3 <= String.length u /\ 6 <= String.length p.
Proof.
  intro H. unfold validate in H.
  destruct (negb (truthy (VStr u)) || negb (typeof (VStr u) =? "string")
            || shorterThan (VStr u) 3)%bool eqn:EU; [discriminate |].
  destruct (negb (truthy (VStr p)) || negb (typeof (VStr p) =? "string")
            || shorterThan (VStr p) 6)%bool eqn:EP; [discriminate |].
  apply orb_false_iff in EU as [_ EU]. apply orb_false_iff in EP as [_ EP].
  simpl in EU, EP. apply Nat.ltb_ge in EU, EP. split; assumption.
Qed.

(** X26.  What [validate] lets through: a username of at least 3 and a
    password of at least 6 code units, and an e-mail with exactly one [@],
    no whitespace and at least 5 code units. *)
Theorem validate_accepts_only_well_formed :
  forall (u p e : string) (preferences : value),
    validate (VStr u) (VStr p) (VStr e) preferences = None ->
    3 <= String.length u
    /\ 6 <= String.length p
    /\ Notions.occurrences "@" e = 1
    /\ Forall (fun c => isWhiteSpace c = false) (list_ascii_of_string e)
    /\ 5 <= String.length e.
Proof.
  intros u p e preferences H. unfold validate in H.
  destruct (negb (truthy (VStr u)) || negb (typeof (VStr u) =? "string")
            || shorterThan (VStr u) 3)%bool eqn:EU; [discriminate |].
  destruct (negb (truthy (VStr p)) || negb (typeof (VStr p) =? "string")
            || shorterThan (VStr p) 6)%bool eqn:EP; [discriminate |].
  destruct (negb (truthy (VStr e)) || negb (typeof (VStr e) =? "string")
            || failsRegex (VStr e))%bool eqn:EE; [discriminate |].
  apply orb_false_iff in EU as [_ EU]. apply orb_false_iff in EP as [_ EP].
  apply orb_false_iff in EE as [_ EE].
  simpl in EU, EP, EE. apply Nat.ltb_ge in EU, EP.
  apply negb_false_iff in EE.
  apply StringFacts.emailRegex_spec in EE
    as (l & dm & t & E & Sl & Sd & St).
  injection E as ->.
  split; [exact EU |]. split; [exact EP |].
  unfold Notions.occurrences.
  rewrite list_ascii_of_string_of_list_ascii,
    AcceptedFacts.string_length_of_list.
  split; [| split].
  - rewrite count_occ_app. cbn [count_occ].
    destruct (ascii_dec "@" "@") as [_ | N]; [| congruence].
    rewrite count_occ_app. cbn [count_occ].
    destruct (ascii_dec "." "@") as [N | _]; [discriminate N |].
    rewrite !AcceptedFacts.count_segment by assumption. reflexivity.
  - apply Forall_app. split; [apply AcceptedFacts.segment_no_space, Sl |].
    constructor; [reflexivity |].
    apply Forall_app. split; [apply AcceptedFacts.segment_no_space, Sd |].
    constructor; [reflexivity |].
    apply AcceptedFacts.segment_no_space, St.
  - apply AcceptedFacts.segment_length in Sl, Sd, St.
    rewrite length_app. cbn [List.length]. rewrite length_app.
    cbn [List.length]. lia.
Qed.

Lemma validate_accepts_only_well_formed_witness :
  3 <= String.length "alice"
  /\ 6 <= String.length "secret1"
  /\ Notions.occurrences "@" "a@b.c" = 1
  /\ Forall (fun c => isWhiteSpace c = false) (list_ascii_of_string "a@b.c")
  /\ 5 <= String.length "a@b.c".
Proof.
  apply (validate_accepts_only_well_formed "alice" "secret1" "a@b.c"
           VUndefined).
  reflexivity.
Defined.

(* ===================================================================== *)
(** ** From registration to the current user *)
(* ===================================================================== *)

Module IdentityFacts.

Lemma length_append (a b : string) :
  String.length (a ++ b) = String.length a + String.length b.
Proof.
  induction a as [| c a IH]; simpl; [reflexivity | rewrite IH; reflexivity].
Qed.

Lemma list_of_append (a b : string) :
  list_ascii_of_string (a ++ b)
  = list_ascii_of_string a ++ list_ascii_of_string b.
Proof.
  induction a as [| c a IH]; simpl; [reflexivity | rewrite IH; reflexivity].
Qed.

Lemma toLowerCase_append (a b : string) :
  toLowerCase (a ++ b) = (toLowerCase a ++ toLowerCase b)%string.
Proof.
  induction a as [| c a IH]; simpl; [reflexivity | rewrite IH; reflexivity].
Qed.

Lemma hexDigit_ok (m : N) :
  Mongo.isHexDigit (Mongo.hexDigit m) = true
  /\ lowerChar (Mongo.hexDigit m) = Mongo.hexDigit m.
Proof.
  unfold Mongo.hexDigit. generalize (N.to_nat m). intro i.
  do 16 (destruct i as [| i]; [split; reflexivity |]).
  destruct i; split; reflexivity.
Qed.

Lemma hexDigits_ok (k : nat) :
  forall n,
    String.length (Mongo.hexDigits k n) = k
    /\ forallb Mongo.isHexDigit (list_ascii_of_string (Mongo.hexDigits k n))
       = true
    /\ toLowerCase (Mongo.hexDigits k n) = Mongo.hexDigits k n.
Proof.
  induction k as [| k IH]; intro n; simpl; [repeat split |].
  destruct (IH (n / 16)%N) as (HL & HF & HC).
  destruct (hexDigit_ok (n mod 16)%N) as [HD HD'].
  rewrite length_append, list_of_append, toLowerCase_append, forallb_app.
  simpl. rewrite HL, HF, HC, HD, HD'. repeat split. lia.
Qed.

(** The identity the store hands out comes back unchanged through
    [new ObjectId]. *)
Lemma freshId_round_trip (d : Mongo.db) :
  Mongo.newObjectId (VStr (Mongo.freshId d)) = Normal (Mongo.freshId d).
Proof.
  unfold Mongo.newObjectId, Mongo.freshId.
  destruct (hexDigits_ok 24 (Mongo.counter d)) as (HL & HF & HC).
  rewrite HL, HF, HC. reflexivity.
Qed.

End IdentityFacts.

(** X27.  The whole path, for a username on which the two normalisations
    agree.  After a valid registration, (1) a login with the same username
    and password sets a cookie with a token for the new record; (2) with
    that token, once it verifies to the identity and username it was
    signed over, [POST /api/preferences] passes [requireAuth] and answers
    200, and (3) [GET /api/me] then answers the stored (lower-case)
    username and the preferences just written. *)
Theorem register_login_replace_read :
  forall (bcrypt_hash : string -> nat -> string)
         (bcrypt_compare : string -> string -> bool)
         (jwt_sign : value -> value -> string -> string)
         (jwt_verify : value -> value -> option value)
         (JWT_SECRET : value) (isProd : bool) (Date_now : N)
         (queryOperators : list (string * value) -> string -> bool)
         (u p e : string) (d : Mongo.db) (prefs decoded : value),
    validate (VStr u) (VStr p) (VStr e) (VObj []) = None ->
    Mongo.collides (toLowerCase u) (toLowerCase e) d = false ->
    NoDup (map Mongo._id (Mongo.users d)) ->
    ~ In (Mongo.freshId d) (map Mongo._id (Mongo.users d)) ->
    trim u = toLowerCase u ->
    bcrypt_compare p (bcrypt_hash p SALT_ROUNDS) = true ->
    truthy JWT_SECRET = true ->
    let token :=
      jwt_sign (VObj [("userId", VStr (Mongo.freshId d));
                      ("username", VStr (toLowerCase u))]) JWT_SECRET "1d" in
    token <> "" ->
    jwt_verify (VStr token) JWT_SECRET = Some decoded ->
    prop decoded "userId" = VStr (Mongo.freshId d) ->
    prop decoded "username" = VStr (toLowerCase u) ->
    typeof prefs = "object" ->
    let d1 := fst (postUser bcrypt_hash bcrypt_compare jwt_sign JWT_SECRET
                     isProd Date_now
                     (mkRequest VUndefined (signup (VStr u) (VStr p) (VStr e))
                        None) d) in
    let replace := mkRequest (VStr token) (VObj [("preferences", prefs)])
                     None in
    let d2 := fst (route (requireAuth jwt_verify JWT_SECRET) postPreferences
                     replace d1) in
    postLogin bcrypt_compare jwt_sign JWT_SECRET isProd
      (mkRequest VUndefined (credentials (VStr u) (VStr p)) None) d1
    = (d1, Normal [cookie "auth" token
                     (mkCookieOptions true isProd "lax" 86400000);
                   json (VObj [("username", VStr u);
                               ("preferences", VObj [])])])
    /\ snd (route (requireAuth jwt_verify JWT_SECRET) postPreferences
              replace d1)
       = Normal [json (VObj [("message",
                              VStr "Preferences updated successfully")])]
    /\ route (requireAuth jwt_verify JWT_SECRET) (getMe queryOperators)
         (mkRequest (VStr token) VUndefined None) d2
       = (d2, Normal [json (VObj [("username", VStr (toLowerCase u));
                                  ("preferences",
                                   coalesce prefs (VObj []))])]).
Proof.
  intros hash compare sign verify secret isProd now ops u p e d prefs decoded
         HV HC HN HFresh HT HB HS token HTok HVer HId HName HObj d1 replace d2.
  set (new := Mongo.mkUser (Mongo.freshId d) (toLowerCase u)
                (hash p SALT_ROUNDS) (toLowerCase e) (VObj []) now).
  assert (E1 : d1 = Mongo.mkDb (Mongo.users d ++ [new]) (Mongo.counter d + 1)).
  { subst d1.
    destruct (RegisterFacts.postUser_answers_createUser hash compare sign
                secret isProd now
                (mkRequest VUndefined (signup (VStr u) (VStr p) (VStr e)) None)
                d) as (err & _ & ->).
    cbn [fst body]. rewrite (createUser_inserts hash now u p e d HV HC).
    reflexivity. }
  assert (E1' : d1 = fst (createUser hash now
                            (signup (VStr u) (VStr p) (VStr e)) d)).
  { rewrite E1, (createUser_inserts hash now u p e d HV HC). reflexivity. }
  assert (HTt : truthy (VStr token) = true).
  { simpl. apply negb_true_iff, String.eqb_neq. exact HTok. }
  split; [| split].
  - destruct (login_after_registration_agreeing hash compare sign verify
                secret now u p e d decoded HV HC HT HB HS) as [HL _].
    rewrite <- E1' in HL. fold token in HL.
    unfold postLogin, bind. cbn [body]. rewrite HL. reflexivity.
  - assert (HF1 : Mongo.findOne (toLowerCase u) d1 = Some new).
    { rewrite E1. unfold new. rewrite StoreFacts.findOne_after_insert
        by (eapply StoreFacts.collides_findOne; exact HC).
      rewrite String.eqb_refl. reflexivity. }
    assert (HN1 : NoDup (map Mongo._id (Mongo.users d1))).
    { rewrite E1. cbn [Mongo.users]. rewrite map_app.
      apply NoDup_app; [exact HN | repeat constructor; intros [] |].
      intros a Ha [<- | []]. exact (HFresh Ha). }
    assert (HLen : toLowerCase u <> "").
    { destruct (validate_accepts_only_well_formed_len u p e HV) as [H3 _].
      intro H0. pose proof (TrimFacts.toLowerCase_length u) as HL.
      rewrite H0 in HL. simpl in HL. lia. }
    rewrite (route_requireAuth_valid_token verify secret postPreferences
               replace decoded d1 HS HTt HVer).
    destruct (replace_then_read ops (attach replace decoded)
                (attach (mkRequest (VStr token) VUndefined None) decoded)
                d1 (toLowerCase u) new prefs) as (R1 & _ & _);
      try reflexivity; try assumption.
    unfold userId, attach. cbn [user id]. rewrite HId.
    apply IdentityFacts.freshId_round_trip.
  - assert (HF1 : Mongo.findOne (toLowerCase u) d1 = Some new).
    { rewrite E1. unfold new. rewrite StoreFacts.findOne_after_insert
        by (eapply StoreFacts.collides_findOne; exact HC).
      rewrite String.eqb_refl. reflexivity. }
    assert (HN1 : NoDup (map Mongo._id (Mongo.users d1))).
    { rewrite E1. cbn [Mongo.users]. rewrite map_app.
      apply NoDup_app; [exact HN | repeat constructor; intros [] |].
      intros a Ha [<- | []]. exact (HFresh Ha). }
    assert (HLen : toLowerCase u <> "").
    { destruct (validate_accepts_only_well_formed_len u p e HV) as [H3 _].
      intro H0. pose proof (TrimFacts.toLowerCase_length u) as HL.
      rewrite H0 in HL. simpl in HL. lia. }
    assert (D2 : d2 = fst (postPreferences (attach replace decoded) d1)).
    { subst d2.
      rewrite (route_requireAuth_valid_token verify secret postPreferences
                 replace decoded d1 HS HTt HVer). reflexivity. }
    rewrite (route_requireAuth_valid_token verify secret (getMe ops)
               (mkRequest (VStr token) VUndefined None) decoded d2 HS HTt HVer).
    rewrite D2.
    destruct (replace_then_read ops (attach replace decoded)
                (attach (mkRequest (VStr token) VUndefined None) decoded)
                d1 (toLowerCase u) new prefs) as (_ & _ & R3);
      try reflexivity; try assumption.
    unfold userId, attach. cbn [user id]. rewrite HId.
    apply IdentityFacts.freshId_round_trip.
Qed.

Lemma register_login_replace_read_witness :
  let hash := fun (p : string) (_ : nat) => ("$2b$15$" ++ p)%string in
  let compare := fun (p h : string) => (h =? "$2b$15$" ++ p)%string in
  let sign := fun (_ _ : value) (_ : string) => "signed" in
  let verify := fun (_ _ : value) =>
                  Some (VObj [("userId", VStr "000000000000000000000000");
                              ("username", VStr "alice")]) in
  let prefs := VObj [("team", VStr "NE")] in
  let d1 := fst (postUser hash compare sign (VStr "secret") false 0
                   (mkRequest VUndefined
                      (signup (VStr "alice") (VStr "secret1")
                         (VStr "alice@example.com")) None) Mongo.empty) in
  let replace := mkRequest (VStr "signed") (VObj [("preferences", prefs)])
                   None in
  let d2 := fst (route (requireAuth verify (VStr "secret")) postPreferences
                   replace d1) in
  postLogin compare sign (VStr "secret") false
    (mkRequest VUndefined (credentials (VStr "alice") (VStr "secret1")) None)
    d1
  = (d1, Normal [cookie "auth" "signed"
                   (mkCookieOptions true false "lax" 86400000);
                 json (VObj [("username", VStr "alice");
                             ("preferences", VObj [])])])
  /\ snd (route (requireAuth verify (VStr "secret")) postPreferences
            replace d1)
     = Normal [json (VObj [("message",
                            VStr "Preferences updated successfully")])]
  /\ route (requireAuth verify (VStr "secret")) (getMe (fun _ _ => false))
       (mkRequest (VStr "signed") VUndefined None) d2
     = (d2, Normal [json (VObj [("username", VStr "alice");
                                ("preferences", coalesce prefs (VObj []))])]).
Proof.
  intros hash compare sign verify prefs d1 replace d2.
  apply (register_login_replace_read hash compare sign verify (VStr "secret")
           false 0 (fun _ _ => false) "alice" "secret1" "alice@example.com"
           Mongo.empty prefs
           (VObj [("userId", VStr "000000000000000000000000");
                  ("username", VStr "alice")]));
    try reflexivity.
  - constructor.
  - intros [].
  - discriminate.
Defined.
